(** * SweetTech R&D Mate: the two-stage analysis session, the analysis
      client and the competitor comparison metrics.

    The development follows the TypeScript sources:
    - the [App] component, in [unnamed/part_000] (the orchestrator:
      [handleAnalyze], [handleReset], [isIdle]),
    - [services/geminiService], the TypeScript half of [app.py.txt]
      ([analyzeProductProfile], [extractSources], [fileToBase64]),
    - [components/CompetitorComparison.tsx] ([parseValue], the metric table
      and the bar width of every cell). *)

From Stdlib Require Import ZArith QArith Lqa String Ascii List Lia.
From Stdlib Require SpecFloat.
From stdpp Require Import base option list strings gmap pretty.

Local Open Scope string_scope.
Local Open Scope list_scope.

(** ** Completions: what an awaited call or a statement block ends with *)

(** A thrown value.  The orchestrator only ever asks one question of it:
    [err instanceof Error ? err.message : ...]. *)
Inductive Thrown : Type :=
  | ErrorObject (message : string)   (* [new Error(message)], [TypeError], [SyntaxError] *)
  | NonError.                        (* any other rejected value, e.g. a reader's event *)

Inductive Completion (A : Type) : Type :=
  | Normal (a : A)
  | Abrupt (e : Thrown).
Arguments Normal {A} a.
Arguments Abrupt {A} e.

(** ** First-occurrence deduplication: [Array.from(new Set(xs))] *)

Section Uniq.
Context {A : Type} (same : A -> A -> bool).

(** A JavaScript [Set] keeps insertion order and ignores a value that is
    already present; [seen] is the set built so far, newest first. *)
Fixpoint Set_add_all (seen : list A) (xs : list A) : list A :=
  match xs with
  | [] => []
  | x :: xs' =>
      if existsb (same x) seen then Set_add_all seen xs'
      else x :: Set_add_all (x :: seen) xs'
  end.

Definition Array_from_Set (xs : list A) : list A := Set_add_all [] xs.

(** No two entries are the same value. *)
Fixpoint distinct (l : list A) : Prop :=
  match l with
  | [] => True
  | x :: l' => Forall (fun y => same y x = false) l' /\ distinct l'
  end.
End Uniq.

(** ** The orchestrator ([App]) *)

Module App.

Inductive Language : Type := VN | EN | KR.

(** A user-supplied file: its name, its content type and what a
    [FileReader] yields for it ([readAsDataURL]): a data URL, or a failed
    read. *)
Record File : Type := mkFile {
  file_name : string;
  file_type : string;
  file_dataURL : option string
}.

(** [!v] for a value that is an object or [null]. *)
Definition is_null {A} (v : option A) : bool :=
  match v with None => true | Some _ => false end.

Section Orchestrator.
(** [ProductProfile] and the non-source fields of
    [Partial<AnalysisResult>] are opaque to the orchestrator. *)
Context {ProductProfile InsightFields : Type}.

(** [Partial<AnalysisResult>]: every key optional, [sources] among them. *)
Record Insights : Type := mkInsights {
  ins_fields : InsightFields;
  ins_sources : option (list string)
}.

Record ProfileResult : Type := mkProfileResult {
  profile : ProductProfile;
  sources : list string
}.

(** The component state, one field per [useState]. *)
Record Session : Type := mkSession {
  input : string;
  file : option File;
  language : Language;
  profileData : option ProductProfile;
  insightsData : option Insights;
  allSources : list string;
  isAnalyzingProfile : bool;
  isAnalyzingInsights : bool;
  error : option string;
  isGeneratingPdf : bool
}.

Definition initial : Session :=
  mkSession "" None VN None None [] false false None false.

(** The setters. *)
Definition setInput v (s : Session) : Session :=
  mkSession v (file s) (language s) (profileData s) (insightsData s)
    (allSources s) (isAnalyzingProfile s) (isAnalyzingInsights s) (error s)
    (isGeneratingPdf s).
Definition setFile v (s : Session) : Session :=
  mkSession (input s) v (language s) (profileData s) (insightsData s)
    (allSources s) (isAnalyzingProfile s) (isAnalyzingInsights s) (error s)
    (isGeneratingPdf s).
Definition setLanguage v (s : Session) : Session :=
  mkSession (input s) (file s) v (profileData s) (insightsData s)
    (allSources s) (isAnalyzingProfile s) (isAnalyzingInsights s) (error s)
    (isGeneratingPdf s).
Definition setProfileData v (s : Session) : Session :=
  mkSession (input s) (file s) (language s) v (insightsData s)
    (allSources s) (isAnalyzingProfile s) (isAnalyzingInsights s) (error s)
    (isGeneratingPdf s).
Definition setInsightsData v (s : Session) : Session :=
  mkSession (input s) (file s) (language s) (profileData s) v
    (allSources s) (isAnalyzingProfile s) (isAnalyzingInsights s) (error s)
    (isGeneratingPdf s).
(** [setAllSources] is used both with a value and with an updater
    [prev => ...]; the updater form covers both. *)
Definition setAllSources (f : list string -> list string) (s : Session) : Session :=
  mkSession (input s) (file s) (language s) (profileData s) (insightsData s)
    (f (allSources s)) (isAnalyzingProfile s) (isAnalyzingInsights s) (error s)
    (isGeneratingPdf s).
Definition setIsAnalyzingProfile v (s : Session) : Session :=
  mkSession (input s) (file s) (language s) (profileData s) (insightsData s)
    (allSources s) v (isAnalyzingInsights s) (error s) (isGeneratingPdf s).
Definition setIsAnalyzingInsights v (s : Session) : Session :=
  mkSession (input s) (file s) (language s) (profileData s) (insightsData s)
    (allSources s) (isAnalyzingProfile s) v (error s) (isGeneratingPdf s).
Definition setError v (s : Session) : Session :=
  mkSession (input s) (file s) (language s) (profileData s) (insightsData s)
    (allSources s) (isAnalyzingProfile s) (isAnalyzingInsights s) v
    (isGeneratingPdf s).

(** *** The handler monad

    A handler runs against the component state and the two service
    endpoints.  Every call of an endpoint is logged together with the
    state the component shows while the call is in flight. *)
Inductive Call : Type :=
  | CallProfile (text : string) (media : option File) (lang : Language)
  | CallInsights (text : string) (media : option File)
                 (p : ProductProfile) (lang : Language).

Record World : Type := mkWorld {
  session : Session;
  calls : list (Call * Session)   (* oldest first *)
}.

Definition Handler (A : Type) : Type := World -> Completion A * World.

Definition ret {A} (a : A) : Handler A := fun w => (Normal a, w).
Definition throw {A} (e : Thrown) : Handler A := fun w => (Abrupt e, w).
Definition bind {A B} (m : Handler A) (k : A -> Handler B) : Handler B :=
  fun w => match m w with
           | (Normal a, w') => k a w'
           | (Abrupt e, w') => (Abrupt e, w')
           end.
Definition update (f : Session -> Session) : Handler unit :=
  fun w => (Normal tt, mkWorld (f (session w)) (calls w)).

(** [try { body } catch (err) { handler err }] *)
Definition try_catch {A} (body : Handler A) (handler : Thrown -> Handler A)
  : Handler A :=
  fun w => match body w with
           | (Normal a, w') => (Normal a, w')
           | (Abrupt e, w') => handler e w'
           end.
(** [try { body } finally { final }]: [final] runs on both exits and the
    completion of [body] is kept unless [final] is itself abrupt. *)
Definition try_finally {A} (body : Handler A) (final : Handler unit)
  : Handler A :=
  fun w => match body w with
           | (c, w') => match final w' with
                        | (Normal _, w'') => (c, w'')
                        | (Abrupt e, w'') => (Abrupt e, w'')
                        end
           end.

#[local] Instance handler_ret : MRet Handler := @ret.
#[local] Instance handler_bind : MBind Handler := fun A B k m => bind m k.

(** The two service functions, as the orchestrator imports them. *)
Variable analyzeProductProfile :
  string -> option File -> Language -> Completion ProfileResult.
Variable analyzeProductInsights :
  string -> option File -> ProductProfile -> Language -> Completion Insights.

(** [await analyzeProductProfile(...)]: the call is issued, the component
    shows the current state until it settles. *)
Definition await_profile text media lang : Handler ProfileResult :=
  fun w =>
    (analyzeProductProfile text media lang,
     mkWorld (session w) (calls w ++ [(CallProfile text media lang, session w)])).
Definition await_insights text media p lang : Handler Insights :=
  fun w =>
    (analyzeProductInsights text media p lang,
     mkWorld (session w) (calls w ++ [(CallInsights text media p lang, session w)])).

(** [err instanceof Error ? err.message : "An unknown error occurred"] *)
Definition message_of (err : Thrown) : string :=
  match err with
  | ErrorObject m => m
  | NonError => "An unknown error occurred"
  end.

(** [!input && !file]: the empty string and [null] are the falsy values. *)
Definition nothing_to_analyze (text : string) (media : option File) : bool :=
  String.eqb text "" && is_null media.

(** [handleAnalyze].  [input], [file] and [language] are the values of
    the render in which the handler was created. *)
Definition handleAnalyze : Handler unit :=
  fun w0 =>
    let text := input (session w0) in
    let media := file (session w0) in
    let lang := language (session w0) in
    (if nothing_to_analyze text media then ret tt
     else
       (* Reset State *)
       update (setIsAnalyzingProfile true) ;;
       update (setIsAnalyzingInsights false) ;;
       update (setError None) ;;
       update (setProfileData None) ;;
       update (setInsightsData None) ;;
       update (setAllSources (fun _ => [])) ;;
       try_finally
         (try_catch
            ((* Step 1: Analyze Profile *)
             r ← await_profile text media lang;
             update (setProfileData (Some (profile r))) ;;
             update (setAllSources (fun prev => prev ++ sources r)) ;;
             update (setIsAnalyzingProfile false) ;;
             (* Step 2: Analyze Insights *)
             update (setIsAnalyzingInsights true) ;;
             insights ← await_insights text media (profile r) lang;
             update (setInsightsData (Some insights)) ;;
             match ins_sources insights with
             | Some more =>
                 update (setAllSources
                           (fun prev => Array_from_Set String.eqb (prev ++ more)))
             | None => ret tt
             end)
            (fun err => update (setError (Some (message_of err)))))
         (update (setIsAnalyzingProfile false) ;;
          update (setIsAnalyzingInsights false))) w0.

(** [handleReset] *)
Definition handleReset : Handler unit :=
  update (setProfileData None) ;;
  update (setInsightsData None) ;;
  update (setInput "") ;;
  update (setFile None) ;;
  update (setAllSources (fun _ => [])).

(** [const isIdle = !profileData && !isAnalyzingProfile], where every
    stored profile is an object: [!profileData] is then the test for
    [null].  The render is in [screens], for any stored value. *)
Definition isIdle (s : Session) : bool :=
  is_null (profileData s) && negb (isAnalyzingProfile s).

(** The session states of the design, read off the fields. *)
Definition ProfileLoading (s : Session) : Prop := isAnalyzingProfile s = true.
Definition InsightsLoading (s : Session) : Prop :=
  isAnalyzingProfile s = false /\ isAnalyzingInsights s = true /\
  is_Some (profileData s).
Definition Errored (s : Session) : Prop :=
  is_Some (error s) /\ isAnalyzingProfile s = false /\
  isAnalyzingInsights s = false.
Definition Complete (s : Session) : Prop :=
  error s = None /\ isAnalyzingProfile s = false /\
  isAnalyzingInsights s = false /\ is_Some (profileData s) /\
  is_Some (insightsData s).

(** The state in which the first call is issued, and the state in which
    the second one is. *)
Definition started (s : Session) : Session :=
  setAllSources (fun _ => [])
    (setInsightsData None
       (setProfileData None
          (setError None
             (setIsAnalyzingInsights false (setIsAnalyzingProfile true s))))).
Definition profiled (r : ProfileResult) (s : Session) : Session :=
  setIsAnalyzingInsights true
    (setIsAnalyzingProfile false
       (setAllSources (fun prev => prev ++ sources r)
          (setProfileData (Some (profile r)) (started s)))).

(** What the last step of a successful stage 2 does to the sources. *)
Definition merge_sources (ins : Insights) (s : Session) : Session :=
  match ins_sources ins with
  | Some more =>
      setAllSources (fun prev => Array_from_Set String.eqb (prev ++ more)) s
  | None => s
  end.

(** Running a handler from a state with an empty call log. *)
Definition run {A} (h : Handler A) (s : Session) : World :=
  snd (h (mkWorld s [])).
Definition after {A} (h : Handler A) (s : Session) : Session :=
  session (run h s).
Definition calls_of {A} (h : Handler A) (s : Session) : list Call :=
  map fst (calls (run h s)).

Definition is_insights_call (c : Call) : bool :=
  match c with CallInsights _ _ _ _ => true | CallProfile _ _ _ => false end.

(** [handleFileChange]: [files] is [e.target.files], [None] when the
    input has no file list. *)
Definition handleFileChange (files : option (list File)) : Handler unit :=
  match files with
  | Some (first :: _) => update (setFile (Some first))
  | _ => ret tt
  end.

Definition setIsGeneratingPdf v (s : Session) : Session :=
  mkSession (input s) (file s) (language s) (profileData s) (insightsData s)
    (allSources s) (isAnalyzingProfile s) (isAnalyzingInsights s) (error s) v.

(** The file name of the report, from [new Date().toISOString()]. *)
Definition pdf_filename (iso : string) : string :=
  ("SweetTech_Report_" ++ substring 0 10 iso ++ ".pdf")%string.

(** [handleDownloadPdf].  The element [printable-report] is part of the
    results view, which is rendered exactly when [profileData] is set;
    [save] is how the promise of [html2pdf()...save()] settles.  Its
    [then] callback clears the flag; nothing is attached for a
    rejection. *)
Definition handleDownloadPdf (save : Completion unit) : Handler unit :=
  fun w =>
    (if is_null (profileData (session w)) then ret tt
     else
       update (setIsGeneratingPdf true) ;;
       match save with
       | Normal _ => update (setIsGeneratingPdf false)
       | Abrupt _ => ret tt
       end) w.


(** The test [profileData] of the render.  The stored value is whatever
    stage 1 handed on, and that need not be truthy: the client returns
    [undefined] for a document without a [profile] key.  [truthy] tells
    which profiles are. *)
Definition has_profile (truthy : ProductProfile -> bool) (s : Session) : bool :=
  match profileData s with
  | Some p => truthy p
  | None => false
  end.



End Orchestrator.

Arguments Insights : clear implicits.
Arguments ProfileResult : clear implicits.
Arguments Session : clear implicits.
Arguments Call : clear implicits.
Arguments World : clear implicits.

End App.

(** ** JavaScript values *)

Module Js.

(** Mathematical values.  What a decimal text denotes, before it is
    rounded to a Number: an exact rational, or one of the three special
    values.  The operations below are those of exact arithmetic; the
    Numbers themselves, with their rounding, overflow and underflow, are
    in [Double]. *)
Inductive number : Type :=
  | NaN
  | PosInfinity
  | NegInfinity
  | Fin (q : Q).

Definition zero : number := Fin 0.

(** [a > b] *)
Definition gt (a b : number) : bool :=
  match a, b with
  | NaN, _ | _, NaN => false
  | PosInfinity, PosInfinity => false
  | PosInfinity, _ => true
  | _, PosInfinity => false
  | NegInfinity, _ => false
  | Fin _, NegInfinity => true
  | Fin x, Fin y => negb (Qle_bool x y)
  end.

(** [Math.max(a, b)] and [Math.max(...xs)]: [NaN] is contagious and the
    maximum of nothing is [-Infinity]. *)
Definition max2 (a b : number) : number :=
  match a, b with
  | NaN, _ | _, NaN => NaN
  | _, _ => if gt b a then b else a
  end.
Definition Math_max (xs : list number) : number :=
  fold_left max2 xs NegInfinity.

Definition sign_inf (positive : bool) : number :=
  if positive then PosInfinity else NegInfinity.

(** [a / b] *)
Definition div (a b : number) : number :=
  match a, b with
  | NaN, _ | _, NaN => NaN
  | (PosInfinity | NegInfinity), (PosInfinity | NegInfinity) => NaN
  | PosInfinity, Fin y => sign_inf (Qle_bool 0 y)
  | NegInfinity, Fin y => sign_inf (negb (Qle_bool 0 y))
  | Fin _, (PosInfinity | NegInfinity) => Fin 0
  | Fin x, Fin y =>
      if Qeq_bool y 0 then
        (if Qeq_bool x 0 then NaN else sign_inf (Qle_bool 0 x))
      else Fin (Qred (x / y))
  end.

(** [a * b] *)
Definition mul (a b : number) : number :=
  match a, b with
  | NaN, _ | _, NaN => NaN
  | PosInfinity, PosInfinity | NegInfinity, NegInfinity => PosInfinity
  | PosInfinity, NegInfinity | NegInfinity, PosInfinity => NegInfinity
  | PosInfinity, Fin y | Fin y, PosInfinity =>
      if Qeq_bool y 0 then NaN else sign_inf (Qle_bool 0 y)
  | NegInfinity, Fin y | Fin y, NegInfinity =>
      if Qeq_bool y 0 then NaN else sign_inf (negb (Qle_bool 0 y))
  | Fin x, Fin y => Fin (Qred (x * y))
  end.

(** Values of type [any]: what a parsed JSON document or a provider
    response can hold. *)
#[warnings="-register-all"]
Inductive value : Type :=
  | undefined
  | null
  | boolean (b : bool)
  | num (n : number)
  | str (s : string)
  | array (items : list value)
  | object (fields : list (string * value)).

(** Truthiness, as [if (v)], [v || w] and [!v] see it. *)
Definition truthy (v : value) : bool :=
  match v with
  | undefined | null => false
  | boolean b => b
  | num NaN => false
  | num (Fin q) => negb (Qeq_bool q 0)
  | num _ => true
  | str s => negb (String.eqb s "")
  | array _ | object _ => true
  end.

Definition nullish (v : value) : bool :=
  match v with undefined | null => true | _ => false end.

Fixpoint lookup_field (k : string) (fields : list (string * value)) : value :=
  match fields with
  | [] => undefined
  | (k', v) :: rest => if String.eqb k k' then v else lookup_field k rest
  end.

Definition TypeError : Thrown := ErrorObject "TypeError".
Definition SyntaxError : Thrown := ErrorObject "SyntaxError".

(** [v.k] for a key [k] that no built-in prototype defines (all keys read
    by the sources are of that kind): reading a property of [undefined]
    or [null] throws, a primitive or an array has no such property. *)
Definition get (v : value) (k : string) : Completion value :=
  match v with
  | undefined | null => Abrupt TypeError
  | object fields => Normal (lookup_field k fields)
  | _ => Normal undefined
  end.

(** [v?.k] *)
Definition get_opt (v : value) (k : string) : Completion value :=
  if nullish v then Normal undefined else get v k.

(** [v?.[0]] *)
Definition first_opt (v : value) : value :=
  match v with
  | array (x :: _) => x
  | str (String c _) => str (String c "")
  | object fields => lookup_field "0" fields
  | _ => undefined
  end.

(** [SameValueZero], the equality of [Set].  Arrays and objects compare
    by identity; the values compared here sit at different places of one
    response, so two of them are never the same object. *)
Definition sameValueZero (a b : value) : bool :=
  match a, b with
  | undefined, undefined | null, null => true
  | boolean x, boolean y => Bool.eqb x y
  | num NaN, num NaN => true
  | num PosInfinity, num PosInfinity => true
  | num NegInfinity, num NegInfinity => true
  | num (Fin x), num (Fin y) => Qeq_bool x y
  | str x, str y => String.eqb x y
  | _, _ => false
  end.

(** *** Strings *)

Fixpoint starts_with (pat s : string) : bool :=
  match pat, s with
  | EmptyString, _ => true
  | String p pat', String c s' => Ascii.eqb p c && starts_with pat' s'
  | String _ _, EmptyString => false
  end.

(** [s.replace(/pat/g, "")] for a literal, non-empty [pat]: every match,
    scanning from the left, is dropped.  [skip] counts the characters of
    the current match still to drop. *)
Fixpoint remove_from (pat : string) (skip : nat) (s : string) : string :=
  match s with
  | EmptyString => EmptyString
  | String c s' =>
      match skip with
      | S k => remove_from pat k s'
      | O => if starts_with pat s
             then remove_from pat (String.length pat - 1) s'
             else String c (remove_from pat 0 s')
      end
  end.
Definition remove_all (pat s : string) : string := remove_from pat 0 s.

(** White space and line terminators (the ASCII ones: strings are byte
    strings here). *)
Definition is_space (c : ascii) : bool :=
  let n := nat_of_ascii c in
  (Nat.leb 9 n && Nat.leb n 13) || Nat.eqb n 32.

Fixpoint trimStart (s : string) : string :=
  match s with
  | String c s' => if is_space c then trimStart s' else s
  | EmptyString => EmptyString
  end.
Fixpoint trimEnd (s : string) : string :=
  match s with
  | String c s' =>
      match trimEnd s' with
      | EmptyString => if is_space c then EmptyString else String c EmptyString
      | t => String c t
      end
  | EmptyString => EmptyString
  end.
Definition trim (s : string) : string := trimEnd (trimStart s).

Definition is_digit (c : ascii) : bool :=
  let n := nat_of_ascii c in Nat.leb 48 n && Nat.leb n 57.

Fixpoint take_while (p : ascii -> bool) (s : string) : string :=
  match s with
  | String c s' => if p c then String c (take_while p s') else EmptyString
  | EmptyString => EmptyString
  end.
Fixpoint drop_while (p : ascii -> bool) (s : string) : string :=
  match s with
  | String c s' => if p c then drop_while p s' else s
  | EmptyString => EmptyString
  end.

(** The integer a string of decimal digits denotes. *)
Fixpoint digits_value (acc : Z) (s : string) : Z :=
  match s with
  | String c s' => digits_value (10 * acc + Z.of_nat (nat_of_ascii c - 48)) s'
  | EmptyString => acc
  end.

Definition pow10 (n : nat) : positive := Nat.iter n (Pos.mul 10) 1%positive.

(** The mathematical value [parseFloat(s)] reads, on the strings it is
    applied to here, which hold only digits and points: the longest
    prefix [digits], [digits.digits], [digits.] or [.digits] is the
    number, and there is no number ([NaN]) when that prefix has no digit.
    The Number returned is this value rounded: [Double.parseFloat]. *)
Definition parseFloat (s : string) : number :=
  let int_part := take_while is_digit s in
  let frac_part :=
    match drop_while is_digit s with
    | String c rest => if Ascii.eqb c "." then take_while is_digit rest
                       else EmptyString
    | EmptyString => EmptyString
    end in
  if String.eqb int_part "" && String.eqb frac_part "" then NaN
  else Fin (Qred (digits_value 0 (int_part ++ frac_part)
                  # pow10 (String.length frac_part))).

(** Every character of [s] passes [p]. *)
Fixpoint all_chars (p : ascii -> bool) (s : string) : bool :=
  match s with
  | String c s' => p c && all_chars p s'
  | EmptyString => true
  end.

(** [s] is empty or its first character fails [p]. *)
Definition stops (p : ascii -> bool) (s : string) : bool :=
  match s with
  | String c _ => negb (p c)
  | EmptyString => true
  end.

(** [s] begins with a decimal literal: a digit, or a point followed by a
    digit. *)
Definition starts_a_number (s : string) : bool :=
  match s with
  | String c rest =>
      is_digit c ||
      (Ascii.eqb c "." &&
       match rest with String d _ => is_digit d | EmptyString => false end)
  | EmptyString => false
  end.

Definition is_backtick (c : ascii) : bool := Ascii.eqb c "`".
Definition is_comma (c : ascii) : bool := Ascii.eqb c ",".

(** The own enumerable properties of a value, as a spread [{...v}] copies
    them (as a map: the order of the keys is not represented). *)
Fixpoint index_items (i : nat) (items : list value) : list (string * value) :=
  match items with
  | [] => []
  | x :: rest => (pretty i, x) :: index_items (S i) rest
  end.
Fixpoint index_chars (i : nat) (s : string) : list (string * value) :=
  match s with
  | EmptyString => []
  | String c rest => (pretty i, str (String c EmptyString)) :: index_chars (S i) rest
  end.
Definition own_properties (v : value) : gmap string value :=
  match v with
  | object fields => list_to_map fields
  | array items => list_to_map (index_items 0 items)
  | str s => list_to_map (index_chars 0 s)
  | _ => ∅
  end.

End Js.

(** ** The analysis client ([services/geminiService]) *)

Module Client.
Import Js.

#[local] Instance completion_ret : MRet Completion := @Normal.
#[local] Instance completion_bind : MBind Completion :=
  fun A B k m => match m with Normal a => k a | Abrupt e => Abrupt e end.

(** [try { body } catch (error) { throw handler }] *)
Definition catch_rethrow {A} (body : Completion A) (e : Thrown) : Completion A :=
  match body with
  | Normal a => Normal a
  | Abrupt _ => Abrupt e
  end.

(** The instruction sent to the model, by the template it instantiates. *)
Inductive Prompt : Type :=
  | ProfilePrompt (text language : string)
  | InsightsPrompt (language : string) (profile : value) (text : string).

Inductive Part : Type :=
  | TextPart (prompt : Prompt)
  | InlineData (mimeType data : string).

Record Request : Type := mkRequest {
  model : string;
  googleSearch : bool;
  temperature : Q;
  parts : list Part
}.

(** What the client runs against: the configured credential, the remote
    model and the platform's JSON parser ([None]: a [SyntaxError]). *)
Record Env : Type := mkEnv {
  API_KEY : option string;
  generateContent : Request -> Completion value;
  JSON_parse : string -> option value
}.

(** [result.split(",")[1]]: the piece after the first comma, up to the
    next one; [None] ([undefined]) without a comma. *)
Fixpoint until_comma (s : string) : string :=
  match s with
  | String c s' => if Ascii.eqb c "," then EmptyString else String c (until_comma s')
  | EmptyString => EmptyString
  end.
Fixpoint second_piece (s : string) : option string :=
  match s with
  | String c s' => if Ascii.eqb c "," then Some (until_comma s') else second_piece s'
  | EmptyString => None
  end.

(** [fileToBase64]: rejects with the reader's error event when the read
    fails. *)
Definition fileToBase64 (f : App.File) : Completion (option string) :=
  match App.file_dataURL f with
  | Some url => Normal (second_piece url)
  | None => Abrupt NonError
  end.

Definition truthy_string (s : option string) : bool :=
  match s with
  | Some s => negb (String.eqb s "")
  | None => false
  end.

(** The media part: [if (base64Data && mimeType) parts.push(...)]. *)
Definition media_parts (base64Data mimeType : option string) : list Part :=
  match base64Data, mimeType with
  | Some d, Some m =>
      if negb (String.eqb d "") && negb (String.eqb m "")
      then [InlineData m d] else []
  | _, _ => []
  end.

Definition encode_media (mediaFile : option App.File)
  : Completion (option string * option string) :=
  match mediaFile with
  | Some f => base64Data ← fileToBase64 f;
              mret (base64Data, Some (App.file_type f))
  | None => mret (None, None)
  end.

(** [extractSources] *)
Definition push_source (chunk : value) (sources : list value)
  : Completion (list value) :=
  web ← get chunk "web";
  uri ← get_opt web "uri";
  if truthy uri then
    web' ← get chunk "web";
    uri' ← get web' "uri";
    mret (sources ++ [uri'])
  else mret sources.

Fixpoint forEach_push (chunks : list value) (sources : list value)
  : Completion (list value) :=
  match chunks with
  | [] => mret sources
  | chunk :: rest => sources' ← push_source chunk sources;
                     forEach_push rest sources'
  end.

Definition groundingChunks_of (response : value) : Completion value :=
  candidates ← get response "candidates";
  metadata ← get_opt (first_opt candidates) "groundingMetadata";
  get_opt metadata "groundingChunks".

Definition extractSources (response : value) : Completion (list value) :=
  groundingChunks ← groundingChunks_of response;
  sources ← (if truthy groundingChunks then
               match groundingChunks with
               | array chunks => forEach_push chunks []
               | _ => Abrupt TypeError   (* [forEach] is not a function *)
               end
             else mret []);
  mret (Array_from_Set sameValueZero sources).

(** The value of [response.candidates?.[0]?.groundingMetadata?.groundingChunks]
    for a response that is an object. *)
Definition groundingChunks (response : value) : value :=
  match groundingChunks_of response with
  | Normal chunks => chunks
  | Abrupt _ => undefined
  end.

(** A chunk's web URI, [undefined] when the chunk has no [web] or the
    [web] has no [uri]. *)
Definition web_uri (chunk : value) : value :=
  match chunk with
  | object fields =>
      match lookup_field "web" fields with
      | object web => lookup_field "uri" web
      | _ => undefined
      end
  | _ => undefined
  end.

(** The URIs cited by a chunk list, in order. *)
Definition cited (chunks : value) : list value :=
  match chunks with
  | array items => List.filter truthy (map web_uri items)
  | _ => []
  end.

(** The chunk lists the helper copes with: an absent (falsy) one, or an
    array none of whose entries is [null] or [undefined]. *)
Definition chunk_list_ok (chunks : value) : Prop :=
  match chunks with
  | array items => Forall (fun chunk => nullish chunk = false) items
  | _ => truthy chunks = false
  end.

(** [resultText.replace(/```json/g, "").replace(/```/g, "").trim()] *)
Definition strip_fences (resultText : string) : string :=
  trim (remove_all "```" (remove_all "```json" resultText)).

(** [response.text || ""], then the first [.replace]: a truthy text that
    is no string has no such method. *)
Definition result_text (response : value) : Completion string :=
  text ← get response "text";
  if truthy text then
    match text with
    | str s => mret s
    | _ => Abrupt TypeError
    end
  else mret "".

Definition parse (env : Env) (text : string) : Completion value :=
  match JSON_parse env text with
  | Some data => Normal data
  | None => Abrupt SyntaxError
  end.

Record ProfileResult : Type := mkProfileResult {
  profile : value;
  sources : list value
}.

Definition modelId : string := "gemini-3-pro-preview".
Definition missing_key_error : Thrown :=
  ErrorObject "API Key is missing. Please check your environment configuration.".
Definition profile_error : Thrown := ErrorObject "Failed to analyze profile.".

(** The body of the [try] block of [analyzeProductProfile]. *)
Definition profile_attempt (env : Env) (request : Request)
  : Completion ProfileResult :=
  response ← generateContent env request;
  resultText ← result_text response;
  data ← parse env (strip_fences resultText);
  sources ← extractSources response;
  profile ← get data "profile";
  mret (mkProfileResult profile sources).

Definition profile_request (text : string) (media : option string * option string)
  (language : string) : Request :=
  mkRequest modelId true (3 # 10)
    (TextPart (ProfilePrompt text language) :: media_parts (fst media) (snd media)).

(** [analyzeProductProfile] *)
Definition analyzeProductProfile (env : Env) (text : string)
  (mediaFile : option App.File) (language : string) : Completion ProfileResult :=
  if negb (truthy_string (API_KEY env)) then Abrupt missing_key_error
  else
    media ← encode_media mediaFile;
    catch_rethrow (profile_attempt env (profile_request text media language))
                  profile_error.

(** [analyzeProductInsights] *)
Definition missing_key_error_insights : Thrown := ErrorObject "API Key is missing.".
Definition insights_error : Thrown := ErrorObject "Failed to generate insights.".

Definition insights_request (text : string) (media : option string * option string)
  (profile : value) (language : string) : Request :=
  mkRequest modelId true (5 # 10)
    (TextPart (InsightsPrompt language profile text)
     :: media_parts (fst media) (snd media)).

(** The body of the [try] block: the result is [{ ...data, sources }]. *)
Definition insights_attempt (env : Env) (request : Request)
  : Completion (gmap string value) :=
  response ← generateContent env request;
  resultText ← result_text response;
  data ← parse env (strip_fences resultText);
  sources ← extractSources response;
  mret (<["sources" := array sources]> (own_properties data)).

Definition analyzeProductInsights (env : Env) (text : string)
  (mediaFile : option App.File) (profile : value) (language : string)
  : Completion (gmap string value) :=
  if negb (truthy_string (API_KEY env)) then Abrupt missing_key_error_insights
  else
    media ← encode_media mediaFile;
    catch_rethrow (insights_attempt env (insights_request text media profile language))
                  insights_error.

(** [handleExportTxt] of the [App] component: the record that is
    serialized, [{ profile: profileData, ...insightsData, sources: allSources }],
    and nothing at all without a profile. *)
Definition fullData (profileData : option value)
  (insightsData : option (gmap string value)) (allSources : list string)
  : option (gmap string value) :=
  match profileData with
  | None => None
  | Some p =>
      Some (<["sources" := array (map str allSources)]>
              (default ∅ insightsData ∪ {["profile" := p]}))
  end.
Definition export_filename : string := "SweetTech_Data.txt".

End Client.

(** ** The competitor comparison ([components/CompetitorComparison]) *)

Module Comparison.
Import Js.

(** The fields of [ProductProfile] and [Competitor] the table reads; the
    metric accessors are written against [any], so every field may be
    absent. *)
Record Nutrition : Type := mkNutrition {
  n_energy : option string;
  n_sugar : option string;
  n_fat : option string
}.
Record Specs : Type := mkSpecs {
  s_energy : option string;
  s_texture : option string;
  s_flavorProfile : option string
}.
Record MergedProduct : Type := mkProduct {
  name : string;
  isMain : bool;
  price : option string;
  pricePer100g : option string;
  usp : option string;
  nutrition : option Nutrition;
  specs : option Specs
}.

(** [str.match(/[\d.]+/)]: the first maximal run of digits and points. *)
Definition in_class (c : ascii) : bool := is_digit c || Ascii.eqb c ".".
Definition first_run (s : string) : option string :=
  match drop_while (fun c => negb (in_class c)) s with
  | EmptyString => None
  | rest => Some (take_while in_class rest)
  end.

(** [parseValue], as a mathematical value: what the text denotes.  The
    Number the table computes with is [Comparison64.parseValue]. *)
Definition parseValue (str : option string) : number :=
  match str with
  | None => zero
  | Some s =>
      if String.eqb s "" then zero
      else match first_run s with
           | Some m => parseFloat m
           | None => zero
           end
  end.

(** What [parseValue] can return: no number, or a number that is not
    negative. *)
Definition parsed (n : number) : Prop :=
  match n with
  | NaN => True
  | Fin q => (0 <= q)%Q
  | _ => False
  end.

(** [a || b] on optional strings. *)
Definition or_else (a b : option string) : option string :=
  match a with
  | Some s => if String.eqb s "" then b else a
  | None => b
  end.

Inductive Metric : Type := Price | Energy | Sugar | Fat.
Definition metrics : list Metric := [Price; Energy; Sugar; Fat].

(** [metric.getDisplay(p)] *)
Definition getDisplay (m : Metric) (p : MergedProduct) : option string :=
  match m with
  | Price => or_else (price p) (pricePer100g p)
  | Energy => or_else (nutrition p ≫= n_energy) (specs p ≫= s_energy)
  | Sugar => nutrition p ≫= n_sugar
  | Fat => nutrition p ≫= n_fat
  end.

(** [metric.getValue(p)] *)
Definition getValue (m : Metric) (p : MergedProduct) : number :=
  parseValue (getDisplay m p).

(** [allProducts]: the main product first, then the competitors. *)
Definition allProducts (main : MergedProduct) (competitors : list MergedProduct)
  (fallback_name : string) : list MergedProduct :=
  mkProduct (if String.eqb (name main) "" then fallback_name else name main)
            true (price main) (pricePer100g main) (usp main)
            (nutrition main) (specs main)
  :: map (fun c => mkProduct (name c) false (price c) (pricePer100g c) (usp c)
                     (nutrition c) (specs c)) competitors.

(** [maxValue] of a metric row. *)
Definition maxValue (m : Metric) (products : list MergedProduct) : number :=
  Math_max (map (getValue m) products).

(** [percent] of one cell, [maxValue > 0 ? (val / maxValue) * 100 : 0],
    in exact arithmetic. *)
Definition percent (m : Metric) (products : list MergedProduct)
  (p : MergedProduct) : number :=
  if gt (maxValue m products) zero
  then mul (div (getValue m p) (maxValue m products)) (Fin 100)
  else zero.

(** The bar is drawn only when [val > 0]. *)
Definition bar_shown (m : Metric) (p : MergedProduct) : bool :=
  gt (getValue m p) zero.

(** The text of a metric cell: [displayVal || '-']. *)
Definition cell_text (m : Metric) (p : MergedProduct) : string :=
  match getDisplay m p with
  | Some s => if String.eqb s "" then "-" else s
  | None => "-"
  end.

End Comparison.

(** ** The stand-alone script ([app.py], the Python half of [app.py.txt]) *)

Module Script.

(** What [json.loads] returns. *)
#[warnings="-register-all"]
Inductive pyvalue : Type :=
  | PyNone
  | PyBool (b : bool)
  | PyInt (z : Z)
  | PyFloat (x : Js.number)
  | PyStr (s : string)
  | PyList (items : list pyvalue)
  | PyDict (items : list (string * pyvalue)).

(** Truth value testing, as [if data:] does it. *)
Definition py_truthy (v : pyvalue) : bool :=
  match v with
  | PyNone => false
  | PyBool b => b
  | PyInt z => negb (Z.eqb z 0)
  | PyFloat (Js.Fin q) => negb (Qeq_bool q 0)
  | PyFloat _ => true
  | PyStr s => negb (String.eqb s "")
  | PyList items => match items with [] => false | _ :: _ => true end
  | PyDict items => match items with [] => false | _ :: _ => true end
  end.

(** What the page shows, in order. *)
Inductive Output : Type :=
  | MissingKeyWarning          (* [st.warning], then [st.stop()] *)
  | Spinner (topic : string)   (* [st.spinner] around the call *)
  | GeminiError                (* [st.error] of the [except] branch *)
  | Tabs (data : pyvalue)      (* the three tabs are rendered from [data] *)
  | NoDataError.               (* [st.error] of the [else] branch *)

Section Page.
(** The remote model ([None]: the call or reading [response.text]
    raises) and [json.loads] ([None]: it raises). *)
Variable generate_content : string -> option string.
Variable json_loads : string -> option pyvalue.

(** [get_gemini_response]: the parsed document, or [None] after reporting
    the exception. *)
Definition get_gemini_response (topic : string) : pyvalue * list Output :=
  match generate_content topic ≫= json_loads with
  | Some data => (data, [])
  | None => (PyNone, [GeminiError])
  end.

(** One run of the script: [has_key] is ["GEMINI_API_KEY" in st.secrets],
    [analyze_btn] and [topic_input] are the widget values. *)
Definition page (has_key analyze_btn : bool) (topic_input : string) : list Output :=
  if negb has_key then [MissingKeyWarning]
  else if analyze_btn && negb (String.eqb topic_input "") then
    let (data, shown) := get_gemini_response topic_input in
    Spinner topic_input :: shown ++
    (if py_truthy data then [Tabs data] else [NoDataError])
  else [].
End Page.

End Script.

(** ** Sample sessions and responses used by the examples below *)

Module Samples.
Import App.

Definition S : Type := Session string unit.

Definition typed : S := setInput "Choco Bar 50g" initial.

Definition profile_fails : string -> option File -> Language ->
                           Completion (ProfileResult string) :=
  fun _ _ _ => Abrupt (ErrorObject "Failed to analyze profile.").
Definition profile_ok : string -> option File -> Language ->
                        Completion (ProfileResult string) :=
  fun _ _ _ => Normal (mkProfileResult "Choco Bar" ["A"; "B"]).
Definition insights_fail : string -> option File -> string -> Language ->
                           Completion (Insights unit) :=
  fun _ _ _ _ => Abrupt (ErrorObject "Failed to generate insights.").
Definition insights_ok : string -> option File -> string -> Language ->
                         Completion (Insights unit) :=
  fun _ _ _ _ => Normal (mkInsights tt (Some ["B"; "C"])).

(** The state a session is left in when stage 2 failed. *)
Definition stage2_failed : S :=
  after (handleAnalyze profile_ok insights_fail) typed.

Import Js Client.


Definition with_chunks (chunks : value) : value :=
  object [("text", str "{}");
          ("candidates",
           array [object [("groundingMetadata",
                           object [("groundingChunks", chunks)])]])].

Definition chunk (uri : string) : value :=
  object [("web", object [("uri", str uri); ("title", str "a page")])].

(** A response citing A, B and A again, with one chunk that has no web
    entry. *)
Definition cites_A_B_A : value :=
  with_chunks (array [chunk "https://a.example"; chunk "https://b.example";
                      object []; chunk "https://a.example"]).

(** Responses with malformed metadata: a [null] chunk, and a chunk list
    that is no array. *)
Definition null_chunk : value := with_chunks (array [null]).
Definition chunks_not_an_array : value := with_chunks (str "none").

(** A response without any metadata. *)
Definition bare : value := object [("text", str "{}")].

Definition newline : string := String (ascii_of_nat 10) EmptyString.

(** A response whose text is a fenced JSON document without a
    [profile] key. *)
Definition fenced_text : string :=
  ("```json" ++ newline ++ "{}" ++ newline ++ "```")%string.
Definition fenced_empty_object : value := object [("text", str fenced_text)].

(** The platform parser on the one document the examples need:
    [JSON.parse] of an empty pair of braces is the empty object, and a
    text that is no JSON document is a syntax error. *)
Definition parse_braces (text : string) : option value :=
  if String.eqb text "{}" then Some (object []) else None.

Definition env_returning (response : Completion value) : Env :=
  mkEnv (Some "key") (fun _ => response) parse_braces.

Import Comparison.

Definition priced (name price : string) : MergedProduct :=
  mkProduct name false (Some price) None None None None.

(** A product and two competitors priced 10, 0 and 20. *)
Definition choco : MergedProduct := priced "Choco Bar" "10 USD".
Definition rivals : list MergedProduct :=
  [priced "Free Sample" "0"; priced "Lux Bar" "$20.00"].

(** A picture read as a data URL, one whose content type is unknown, and
    one that cannot be read. *)
Definition label_photo : File :=
  mkFile "label.png" "image/png" (Some "data:image/png;base64,iVBORw0KGgo=").
Definition untyped_photo : File :=
  mkFile "label" "" (Some "data:;base64,iVBORw0KGgo=").
Definition unreadable_photo : File := mkFile "label.png" "image/png" None.

(** A response with a second candidate that cites another page. *)
Definition candidate (uri : string) : value :=
  object [("groundingMetadata", object [("groundingChunks", array [chunk uri])])].
Definition two_candidates : value :=
  object [("candidates",
           array [candidate "https://a.example"; candidate "https://c.example"])].

(** A response whose document has a [sources] key of its own. *)
Definition parse_sources (text : string) : option value :=
  if String.eqb text "{}"
  then Some (object [("sources", str "made up"); ("swot", object [])])
  else None.
Definition env_with_own_sources : Env :=
  mkEnv (Some "key") (fun _ => Normal cites_A_B_A) parse_sources.

(** Insights whose document has a [profile] key of its own. *)
Definition insights_with_profile : gmap string value :=
  {["profile" := str "from stage 2"; "swot" := object [];
    "sources" := array [str "https://b.example"]]}.

(** Documents the script treats as no data. *)
Definition loads_empty_dict (text : string) : option Script.pyvalue :=
  if String.eqb text "{}" then Some (Script.PyDict []) else None.

(** A competitor whose price text has a point before its number. *)
Definition vague : MergedProduct := priced "Corner Shop" "approx. 5 USD".

(** Prices 1 and 3; a price of 310 digits, beyond the largest Number; a
    price of 5e-324, the least positive Number, and one of 1e308. *)
Fixpoint zeros (n : nat) : string :=
  match n with
  | O => EmptyString
  | Datatypes.S n' => String "0" (zeros n')
  end.
Definition one_and_three : list MergedProduct :=
  [priced "One" "1"; priced "Three" "3"].
Definition overflowing : MergedProduct :=
  priced "Overflow" (String "1" (zeros 309)).
Definition tiny : MergedProduct :=
  priced "Tiny" ("0." ++ zeros 323 ++ "5").
Definition large : MergedProduct :=
  priced "Large" (String "1" (zeros 308)).

End Samples.

(** * Binary64 numbers: what the table's arithmetic computes *)

(** The Number values of the language are the binary64 floating-point
    numbers: 53 bits of precision, every operation rounded to the nearest
    representable number (ties to even), overflow to the infinities,
    underflow to the subnormal numbers and to zero. *)
Module Double.
Import SpecFloat.
Local Open Scope Z_scope.

Definition number : Type := spec_float.
Definition prec : Z := 53.
Definition emax : Z := 1024.

Definition nan : number := S754_nan.
Definition zero : number := S754_zero false.
Definition infinity : number := S754_infinity false.

(** [a / b] and [a * b] *)
Definition div (a b : number) : number := SFdiv prec emax a b.
Definition mul (a b : number) : number := SFmul prec emax a b.

(** The Number value of a rational [n / d]: the quotient of the two
    integers, rounded once. *)
Definition round (q : Q) : number :=
  match Qnum q with
  | Z0 => zero
  | Zpos n => div (S754_finite false n 0) (S754_finite false (Qden q) 0)
  | Zneg n => div (S754_finite true n 0) (S754_finite false (Qden q) 0)
  end.

(** The Number value of a mathematical value. *)
Definition of_exact (n : Js.number) : number :=
  match n with
  | Js.NaN => nan
  | Js.PosInfinity => S754_infinity false
  | Js.NegInfinity => S754_infinity true
  | Js.Fin q => round q
  end.

(** The literal [100]. *)
Definition hundred : number := Eval vm_compute in round 100.

(** [a > b] *)
Definition gt (a b : number) : bool := SFltb b a.

(** [Math.max(a, b)] and [Math.max(...xs)]: [NaN] is contagious, [+0] is
    larger than [-0] and the maximum of nothing is [-Infinity]. *)
Definition max2 (a b : number) : number :=
  match SFcompare a b with
  | None => nan
  | Some Lt => b
  | Some Gt => a
  | Some Eq =>
      match a, b with
      | S754_zero sa, S754_zero sb => S754_zero (sa && sb)
      | _, _ => a
      end
  end.
Definition Math_max (xs : list number) : number :=
  fold_left max2 xs (S754_infinity true).

(** [parseFloat(s)] on a run of digits and points: the mathematical
    value of the longest prefix that is a decimal literal, rounded to a
    Number; [NaN] when there is none. *)
Definition parseFloat (s : string) : number := of_exact (Js.parseFloat s).

(** A Number that is not [NaN] and not negative. *)
Definition not_negative (x : number) : Prop :=
  match x with
  | S754_zero s | S754_infinity s | S754_finite s _ _ => s = false
  | S754_nan => False
  end.

(** What a text can be read as: [NaN], or a Number that is not
    negative. *)
Definition nan_or_not_negative (x : number) : Prop :=
  x = nan \/ not_negative x.

End Double.

(** * The metric rows over binary64 numbers *)

(** [Comparison] reads the mathematical value of every text; the table
    itself computes with Numbers.  The texts, the products and the
    metrics are those of [Comparison]. *)
Module Comparison64.
Import Double Comparison.

(** [parseValue] *)
Definition parseValue (str : option string) : number :=
  match str with
  | None => zero
  | Some s =>
      if String.eqb s "" then zero
      else match first_run s with
           | Some m => parseFloat m
           | None => zero
           end
  end.

(** [metric.getValue(p)] *)
Definition getValue (m : Metric) (p : MergedProduct) : number :=
  parseValue (getDisplay m p).

(** [maxValue] of a metric row. *)
Definition maxValue (m : Metric) (products : list MergedProduct) : number :=
  Math_max (map (getValue m) products).

(** [percent] of one cell: [maxValue > 0 ? (val / maxValue) * 100 : 0]. *)
Definition percent (m : Metric) (products : list MergedProduct)
  (p : MergedProduct) : number :=
  if gt (maxValue m products) zero
  then mul (div (getValue m p) (maxValue m products)) hundred
  else zero.

(** The bar widths of a metric row, one per product. *)
Definition bar_widths (m : Metric) (products : list MergedProduct) : list number :=
  map (percent m products) products.

(** The bar is drawn only when [val > 0]. *)
Definition bar_shown (m : Metric) (p : MergedProduct) : bool :=
  gt (getValue m p) zero.

End Comparison64.

(** * Properties of [Array.from(new Set(xs))] *)

Module SetFacts.

Section AnyEquality.
Context {A : Type} (same : A -> A -> bool).

Lemma Set_add_all_fresh (seen xs : list A) :
  Forall (fun y => existsb (same y) seen = false) (Set_add_all same seen xs).
Proof.
  revert seen. induction xs as [|x xs IH]; intros seen; cbn.
  - constructor.
  - destruct (existsb (same x) seen) eqn:Hx; [apply IH|].
    constructor; [exact Hx|].
    eapply Forall_impl; [apply (IH (x :: seen))|].
    cbn. intros y Hy. apply orb_false_iff in Hy. tauto.
Qed.

Lemma Set_add_all_distinct (seen xs : list A) :
  distinct same (Set_add_all same seen xs).
Proof.
  revert seen. induction xs as [|x xs IH]; intros seen; cbn.
  - exact I.
  - destruct (existsb (same x) seen) eqn:Hx; [apply IH|].
    cbn. split; [|apply IH].
    eapply Forall_impl; [apply (Set_add_all_fresh (x :: seen))|].
    cbn. intros y Hy. apply orb_false_iff in Hy. tauto.
Qed.

Lemma Set_add_all_sublist (seen xs : list A) (x : A) :
  x ∈ Set_add_all same seen xs -> x ∈ xs.
Proof.
  revert seen. induction xs as [|y xs IH]; intros seen; cbn.
  - done.
  - destruct (existsb (same y) seen).
    + intros H. right. eauto.
    + intros [->|H]%elem_of_cons; [left|right; eauto].
Qed.

Lemma Array_from_Set_distinct (xs : list A) :
  distinct same (Array_from_Set same xs).
Proof. apply Set_add_all_distinct. Qed.
(** A value that equals only itself is never lost. *)
Lemma Set_add_all_keeps (seen xs : list A) (x : A) :
  same x x = true -> (forall y, same x y = true -> x = y) ->
  x ∈ xs -> existsb (same x) seen = false ->
  x ∈ Set_add_all same seen xs.
Proof.
  intros Hrefl Honly. revert seen.
  induction xs as [|y xs IH]; intros seen Hin Hnew; [by inversion Hin|].
  cbn. destruct (same x y) eqn:Hxy.
  - apply Honly in Hxy as <-. rewrite Hnew. left.
  - apply elem_of_cons in Hin as [->|Hin]; [congruence|].
    destruct (existsb (same y) seen); [by apply IH|].
    right. apply IH; [done|]. cbn. by rewrite Hxy, Hnew.
Qed.

End AnyEquality.

Section DecidedEquality.
Context {A : Type} (same : A -> A -> bool).
Hypothesis same_spec : forall x y, same x y = true <-> x = y.

Lemma existsb_same (x : A) (seen : list A) :
  existsb (same x) seen = true <-> x ∈ seen.
Proof.
  rewrite existsb_exists. split.
  - intros (y & Hy & Hxy). apply same_spec in Hxy as ->.
    by apply list_elem_of_In.
  - intros Hx. exists x. split; [by apply list_elem_of_In|by apply same_spec].
Qed.

Lemma elem_of_Set_add_all (seen xs : list A) (x : A) :
  x ∈ Set_add_all same seen xs <-> x ∈ xs /\ x ∉ seen.
Proof.
  revert seen. induction xs as [|y xs IH]; intros seen; cbn.
  - split; [intros H; inversion H|intros [H _]; inversion H].
  - destruct (existsb (same y) seen) eqn:Hy.
    + apply existsb_same in Hy. rewrite IH, elem_of_cons.
      split; [tauto|]. intros [[->|?] ?]; [done|tauto].
    + assert (y ∉ seen) as Hn.
      { intros H%existsb_same. congruence. }
      rewrite !elem_of_cons, IH, not_elem_of_cons.
      split.
      * intros [->|[? [? ?]]]; tauto.
      * intros [[->|?] ?]; [tauto|].
        destruct (same x y) eqn:Hxy.
        -- apply same_spec in Hxy. tauto.
        -- right. repeat split; try done.
           intros ->. assert (same y y = true) by by apply same_spec.
           congruence.
Qed.

Lemma NoDup_Set_add_all (seen xs : list A) :
  NoDup (Set_add_all same seen xs).
Proof.
  revert seen. induction xs as [|y xs IH]; intros seen; cbn.
  - constructor.
  - destruct (existsb (same y) seen) eqn:Hy; [apply IH|].
    constructor; [|apply IH].
    rewrite elem_of_Set_add_all, not_elem_of_cons. tauto.
Qed.

Lemma elem_of_Array_from_Set (xs : list A) (x : A) :
  x ∈ Array_from_Set same xs <-> x ∈ xs.
Proof.
  unfold Array_from_Set. rewrite elem_of_Set_add_all.
  split; [tauto|]. intros H. split; [done|]. apply not_elem_of_nil.
Qed.

Lemma NoDup_Array_from_Set (xs : list A) : NoDup (Array_from_Set same xs).
Proof. apply NoDup_Set_add_all. Qed.
End DecidedEquality.

Lemma merged_sources_set (l1 l2 : list string) :
  list_to_set (Array_from_Set String.eqb (l1 ++ l2)) =@{gset string}
  list_to_set l1 ∪ list_to_set l2.
Proof.
  apply set_eq. intros u.
  rewrite elem_of_union, !elem_of_list_to_set.
  rewrite (elem_of_Array_from_Set String.eqb String.eqb_eq), elem_of_app.
  done.
Qed.

End SetFacts.

(** * Properties of the orchestrator *)

Module AppFacts.
Import App.

Section Runs.
Context {ProductProfile InsightFields : Type}.
Variable analyzeProductProfile :
  string -> option File -> Language -> Completion (ProfileResult ProductProfile).
Variable analyzeProductInsights :
  string -> option File -> ProductProfile -> Language ->
  Completion (Insights InsightFields).

Abbreviation Session := (Session ProductProfile InsightFields).
Abbreviation analyze :=
  (handleAnalyze analyzeProductProfile analyzeProductInsights).

Lemma run_guard (w : World ProductProfile InsightFields) :
  nothing_to_analyze (input (session w)) (file (session w)) = true ->
  analyze w = (Normal tt, w).
Proof.
  intros H. unfold handleAnalyze. rewrite H. reflexivity.
Qed.

Lemma nothing_to_analyze_spec (text : string) (media : option File) :
  nothing_to_analyze text media = true <-> text = "" /\ media = None.
Proof.
  unfold nothing_to_analyze. rewrite andb_true_iff, String.eqb_eq.
  destruct media; simpl; split; intros [? ?]; try done.
Qed.

(** The three ways a started sequence ends. *)
Lemma run_stage1_fails (s : Session) (e : Thrown) :
  nothing_to_analyze (input s) (file s) = false ->
  analyzeProductProfile (input s) (file s) (language s) = Abrupt e ->
  analyze (mkWorld s []) =
    (Normal tt,
     mkWorld (setIsAnalyzingInsights false
                (setIsAnalyzingProfile false
                   (setError (Some (message_of e)) (started s))))
             [(CallProfile (input s) (file s) (language s), started s)]).
Proof.
  intros Hgo H1. unfold handleAnalyze. cbn [session]. rewrite Hgo.
  unfold mbind, handler_bind, bind, try_finally, try_catch, update,
    await_profile. cbn. rewrite H1. reflexivity.
Qed.

Lemma run_stage2_fails (s : Session) (r : ProfileResult ProductProfile)
  (e : Thrown) :
  nothing_to_analyze (input s) (file s) = false ->
  analyzeProductProfile (input s) (file s) (language s) = Normal r ->
  analyzeProductInsights (input s) (file s) (profile r) (language s) = Abrupt e ->
  analyze (mkWorld s []) =
    (Normal tt,
     mkWorld (setIsAnalyzingInsights false
                (setIsAnalyzingProfile false
                   (setError (Some (message_of e)) (profiled r s))))
             [(CallProfile (input s) (file s) (language s), started s);
              (CallInsights (input s) (file s) (profile r) (language s),
               profiled r s)]).
Proof.
  intros Hgo H1 H2. unfold handleAnalyze. cbn [session]. rewrite Hgo.
  unfold mbind, handler_bind, bind, try_finally, try_catch, update,
    await_profile, await_insights. cbn. rewrite H1. cbn. rewrite H2.
  reflexivity.
Qed.

Lemma run_both_succeed (s : Session) (r : ProfileResult ProductProfile)
  (ins : Insights InsightFields) :
  nothing_to_analyze (input s) (file s) = false ->
  analyzeProductProfile (input s) (file s) (language s) = Normal r ->
  analyzeProductInsights (input s) (file s) (profile r) (language s) = Normal ins ->
  analyze (mkWorld s []) =
    (Normal tt,
     mkWorld (setIsAnalyzingInsights false
                (setIsAnalyzingProfile false
                   (merge_sources ins
                      (setInsightsData (Some ins) (profiled r s)))))
             [(CallProfile (input s) (file s) (language s), started s);
              (CallInsights (input s) (file s) (profile r) (language s),
               profiled r s)]).
Proof.
  intros Hgo H1 H2. unfold handleAnalyze. cbn [session]. rewrite Hgo.
  unfold mbind, handler_bind, bind, try_finally, try_catch, update,
    await_profile, await_insights. cbn. rewrite H1. cbn. rewrite H2.
  unfold merge_sources. destruct (ins_sources ins); reflexivity.
Qed.

(** C1: when stage 1 fails, the error is recorded, the session is
    [Errored] with no profile set, and the only call made is the one to
    the profile endpoint: the insights endpoint is called zero times. *)
Theorem stage1_failure_reaches_errored (s : Session) (e : Thrown) :
  nothing_to_analyze (input s) (file s) = false ->
  analyzeProductProfile (input s) (file s) (language s) = Abrupt e ->
  error (after analyze s) = Some (message_of e) /\
  Errored (after analyze s) /\
  profileData (after analyze s) = None /\
  insightsData (after analyze s) = None /\
  calls_of analyze s = [CallProfile (input s) (file s) (language s)] /\
  length (List.filter is_insights_call (calls_of analyze s)) = 0.
Proof.
  intros Hgo H1. unfold after, calls_of, run, Errored.
  rewrite (run_stage1_fails s e Hgo H1). cbn. eauto 10.
Qed.

(** C2: when stage 2 fails after a successful stage 1, the session is
    [Errored] and still holds the profile and the sources it held while
    stage 2 was in flight, which are those stage 1 returned. *)
Theorem stage2_failure_keeps_profile (s : Session)
  (r : ProfileResult ProductProfile) (e : Thrown) :
  nothing_to_analyze (input s) (file s) = false ->
  analyzeProductProfile (input s) (file s) (language s) = Normal r ->
  analyzeProductInsights (input s) (file s) (profile r) (language s) = Abrupt e ->
  error (after analyze s) = Some (message_of e) /\
  Errored (after analyze s) /\
  profileData (after analyze s) = Some (profile r) /\
  allSources (after analyze s) = sources r /\
  exists before,
    last (calls (run analyze s)) =
      Some (CallInsights (input s) (file s) (profile r) (language s), before) /\
    InsightsLoading before /\
    profileData (after analyze s) = profileData before /\
    allSources (after analyze s) = allSources before.
Proof.
  intros Hgo H1 H2. unfold after, run, Errored.
  rewrite (run_stage2_fails s r e Hgo H1 H2). cbn.
  repeat split; eauto.
  exists (profiled r s). unfold InsightsLoading. cbn. eauto 10.
Qed.

(** C3: after both merges the accumulated sources are the union of what
    the two stages returned, without duplicates, whatever the order; for
    stage 1 returning A, B and stage 2 returning B, C that is A, B, C. *)
Theorem merged_sources_are_the_union (s : Session)
  (r : ProfileResult ProductProfile) (ins : Insights InsightFields)
  (more : list string) :
  nothing_to_analyze (input s) (file s) = false ->
  analyzeProductProfile (input s) (file s) (language s) = Normal r ->
  analyzeProductInsights (input s) (file s) (profile r) (language s) = Normal ins ->
  ins_sources ins = Some more ->
  NoDup (allSources (after analyze s)) /\
  list_to_set (allSources (after analyze s)) =@{gset string}
    list_to_set (sources r) ∪ list_to_set more /\
  (forall A B C : string,
      sources r = [A; B] -> more = [B; C] ->
      list_to_set (allSources (after analyze s)) =@{gset string} {[A; B; C]}).
Proof.
  intros Hgo H1 H2 Hmore. unfold after, run.
  rewrite (run_both_succeed s r ins Hgo H1 H2). unfold merge_sources.
  rewrite Hmore. cbn.
  split; [apply (SetFacts.NoDup_Array_from_Set _ String.eqb_eq)|].
  split; [apply SetFacts.merged_sources_set|].
  intros A B C HA HB. etrans; [apply SetFacts.merged_sources_set|].
  rewrite HA, HB. apply set_eq. intros u.
  rewrite !elem_of_union, !elem_of_list_to_set, !elem_of_cons,
    !elem_of_singleton.
  pose proof (not_elem_of_nil u). tauto.
Qed.

(** When both stages succeed the session is [Complete] and holds the
    profile and the insights. *)
Lemma both_succeed_reaches_complete (s : Session)
  (r : ProfileResult ProductProfile) (ins : Insights InsightFields) :
  nothing_to_analyze (input s) (file s) = false ->
  analyzeProductProfile (input s) (file s) (language s) = Normal r ->
  analyzeProductInsights (input s) (file s) (profile r) (language s) = Normal ins ->
  Complete (after analyze s) /\
  profileData (after analyze s) = Some (profile r) /\
  insightsData (after analyze s) = Some ins.
Proof.
  intros Hgo H1 H2. unfold after, run, Complete.
  rewrite (run_both_succeed s r ins Hgo H1 H2). unfold merge_sources.
  destruct (ins_sources ins); cbn; eauto 10.
Qed.

(** C9: with an empty text and no media file, [handleAnalyze] changes no
    field of the session and calls no endpoint. *)
Theorem start_without_input_is_noop (s : Session) :
  input s = "" -> file s = None ->
  after analyze s = s /\ calls_of analyze s = [] /\
  forall log, analyze (mkWorld s log) = (Normal tt, mkWorld s log).
Proof.
  intros Hi Hf.
  assert (forall log, analyze (mkWorld s log) = (Normal tt, mkWorld s log)) as H.
  { intros log. apply run_guard. cbn. by apply nothing_to_analyze_spec. }
  unfold after, calls_of, run. rewrite H. done.
Qed.

(** C10: however a started sequence ends (both stages succeed, stage 1
    fails, stage 2 fails), the handler returns normally and both loading
    flags are false. *)
Theorem loading_flags_cleared (s : Session) :
  nothing_to_analyze (input s) (file s) = false ->
  fst (analyze (mkWorld s [])) = Normal tt /\
  isAnalyzingProfile (after analyze s) = false /\
  isAnalyzingInsights (after analyze s) = false.
Proof.
  intros Hgo. unfold after, run.
  destruct (analyzeProductProfile (input s) (file s) (language s))
    as [r|e] eqn:H1.
  - destruct (analyzeProductInsights (input s) (file s) (profile r) (language s))
      as [ins|e] eqn:H2.
    + rewrite (run_both_succeed s r ins Hgo H1 H2). cbn.
      unfold merge_sources. destruct (ins_sources ins); done.
    + by rewrite (run_stage2_fails s r e Hgo H1 H2).
  - by rewrite (run_stage1_fails s e Hgo H1).
Qed.

(** What [handleReset] does to every field. *)
Lemma run_reset (w : World ProductProfile InsightFields) :
  handleReset w =
    (Normal tt,
     mkWorld (mkSession "" None (language (session w)) None None []
                (isAnalyzingProfile (session w))
                (isAnalyzingInsights (session w))
                (error (session w)) (isGeneratingPdf (session w)))
             (calls w)).
Proof. reflexivity. Qed.

(** C5 (amended): from every state [handleReset] empties the profile,
    the insights, the input text, the media file and the accumulated
    sources, calls no endpoint, and leaves the error field, the two
    loading flags and the language as they were; the input view
    ([isIdle]) is shown again unless the profile stage is loading. *)
Theorem reset_clears_results_and_input (s : Session) :
  fst (handleReset (mkWorld s [])) = Normal tt /\
  profileData (after handleReset s) = None /\
  insightsData (after handleReset s) = None /\
  input (after handleReset s) = "" /\
  file (after handleReset s) = None /\
  allSources (after handleReset s) = [] /\
  error (after handleReset s) = error s /\
  isAnalyzingProfile (after handleReset s) = isAnalyzingProfile s /\
  isAnalyzingInsights (after handleReset s) = isAnalyzingInsights s /\
  language (after handleReset s) = language s /\
  calls_of handleReset s = [] /\
  isIdle (after handleReset s) = negb (isAnalyzingProfile s).
Proof.
  unfold after, calls_of, run. rewrite run_reset. cbn. eauto 13.
Qed.

(** *** Further properties of the handlers *)

(** As soon as stage 1 succeeds the insights call is issued, with the
    profile stage 1 returned; while it is in flight the session is
    [InsightsLoading] and already holds that profile and its sources. *)
Theorem stage1_success_starts_stage2 (s : Session)
  (r : ProfileResult ProductProfile) :
  nothing_to_analyze (input s) (file s) = false ->
  analyzeProductProfile (input s) (file s) (language s) = Normal r ->
  exists during,
    calls (run analyze s) !! 1%nat =
      Some (CallInsights (input s) (file s) (profile r) (language s), during) /\
    InsightsLoading during /\
    profileData during = Some (profile r) /\
    allSources during = sources r /\
    insightsData during = None /\
    error during = None.
Proof.
  intros Hgo H1. exists (profiled r s). unfold run, InsightsLoading.
  destruct (analyzeProductInsights (input s) (file s) (profile r) (language s))
    as [ins|e] eqn:H2.
  - rewrite (run_both_succeed s r ins Hgo H1 H2). cbn. eauto 10.
  - rewrite (run_stage2_fails s r e Hgo H1 H2). cbn. eauto 10.
Qed.

(** A new analysis starts from scratch: whatever results, error and
    loading flags the session held before, the run and the state it ends
    in are determined by the input text, the file and the language. *)
Theorem analysis_ignores_previous_results (s s' : Session) :
  input s = input s' -> file s = file s' -> language s = language s' ->
  isGeneratingPdf s = isGeneratingPdf s' ->
  nothing_to_analyze (input s) (file s) = false ->
  after analyze s = after analyze s' /\
  calls (run analyze s) = calls (run analyze s').
Proof.
  intros Hi Hf Hl Hp Hgo.
  assert (nothing_to_analyze (input s') (file s') = false) as Hgo'
    by (rewrite <- Hi, <- Hf; exact Hgo).
  assert (started s = started s') as Hs.
  { unfold started. destruct s, s'. cbn in *. by subst. }
  unfold after, run.
  destruct (analyzeProductProfile (input s) (file s) (language s))
    as [r|e] eqn:H1.
  - destruct (analyzeProductInsights (input s) (file s) (profile r) (language s))
      as [ins|e] eqn:H2.
    + rewrite (run_both_succeed s r ins Hgo H1 H2).
      rewrite (run_both_succeed s' r ins Hgo'); try (rewrite <- Hi, <- Hf, <- Hl; done).
      unfold profiled. rewrite Hs, Hi, Hf, Hl. done.
    + rewrite (run_stage2_fails s r e Hgo H1 H2).
      rewrite (run_stage2_fails s' r e Hgo'); try (rewrite <- Hi, <- Hf, <- Hl; done).
      unfold profiled. rewrite Hs, Hi, Hf, Hl. done.
  - rewrite (run_stage1_fails s e Hgo H1).
    rewrite (run_stage1_fails s' e Hgo'); try (rewrite <- Hi, <- Hf, <- Hl; done).
    rewrite Hs, Hi, Hf, Hl. done.
Qed.

Lemma insights_called_only_after_profile_aux (s : Session) :
  nothing_to_analyze (input s) (file s) = false ->
  (exists r,
      calls_of analyze s =
        [CallProfile (input s) (file s) (language s);
         CallInsights (input s) (file s) (profile r) (language s)]) \/
  calls_of analyze s = [CallProfile (input s) (file s) (language s)].
Proof.
  intros Hgo. unfold calls_of, run.
  destruct (analyzeProductProfile (input s) (file s) (language s))
    as [r|e] eqn:H1.
  - left. exists r.
    destruct (analyzeProductInsights (input s) (file s) (profile r) (language s))
      as [ins|e] eqn:H2.
    + by rewrite (run_both_succeed s r ins Hgo H1 H2).
    + by rewrite (run_stage2_fails s r e Hgo H1 H2).
  - right. by rewrite (run_stage1_fails s e Hgo H1).
Qed.

(** The endpoints are called in order and at most once each: the profile
    endpoint first, the insights endpoint only after it succeeded, with the
    profile it returned and the same text, file and language. *)
Theorem insights_called_only_after_profile (s : Session) :
  nothing_to_analyze (input s) (file s) = false ->
  match analyzeProductProfile (input s) (file s) (language s) with
  | Normal r =>
      calls_of analyze s =
        [CallProfile (input s) (file s) (language s);
         CallInsights (input s) (file s) (profile r) (language s)]
  | Abrupt _ =>
      calls_of analyze s = [CallProfile (input s) (file s) (language s)]
  end.
Proof.
  intros Hgo. unfold calls_of, run.
  destruct (analyzeProductProfile (input s) (file s) (language s))
    as [r|e] eqn:H1.
  - destruct (analyzeProductInsights (input s) (file s) (profile r) (language s))
      as [ins|e] eqn:H2.
    + by rewrite (run_both_succeed s r ins Hgo H1 H2).
    + by rewrite (run_stage2_fails s r e Hgo H1 H2).
  - by rewrite (run_stage1_fails s e Hgo H1).
Qed.

(** What [handleAnalyze] never touches. *)
Lemma analyze_frame (s : Session) :
  input (after analyze s) = input s /\
  file (after analyze s) = file s /\
  language (after analyze s) = language s /\
  isGeneratingPdf (after analyze s) = isGeneratingPdf s.
Proof.
  unfold after, run.
  destruct (nothing_to_analyze (input s) (file s)) eqn:Hgo.
  { by rewrite run_guard. }
  destruct (analyzeProductProfile (input s) (file s) (language s))
    as [r|e] eqn:H1.
  - destruct (analyzeProductInsights (input s) (file s) (profile r) (language s))
      as [ins|e] eqn:H2.
    + rewrite (run_both_succeed s r ins Hgo H1 H2). unfold merge_sources.
      destruct (ins_sources ins); done.
    + by rewrite (run_stage2_fails s r e Hgo H1 H2).
  - by rewrite (run_stage1_fails s e Hgo H1).
Qed.

(** The input text, the chosen file and the language survive an analysis,
    however it ends: only [handleReset] clears what the user entered. *)
Theorem analysis_keeps_user_input (s : Session) :
  input (after analyze s) = input s /\
  file (after analyze s) = file s /\
  language (after analyze s) = language s.
Proof. pose proof (analyze_frame s). tauto. Qed.

(** Right after a reset, [handleAnalyze] does nothing and calls nothing
    (the text and the file are gone), and a second reset changes
    nothing. *)
Theorem reset_then_analyze_does_nothing (s : Session) :
  after analyze (after handleReset s) = after handleReset s /\
  calls_of analyze (after handleReset s) = [] /\
  after handleReset (after handleReset s) = after handleReset s.
Proof.
  assert (nothing_to_analyze (input (after handleReset s))
            (file (after handleReset s)) = true) as Hgo by reflexivity.
  pose proof (run_guard (mkWorld (after handleReset s) []) Hgo) as Hrun.
  split; [|split].
  - change (session (snd (analyze (mkWorld (after handleReset s) [])))
            = after handleReset s).
    by rewrite Hrun.
  - change (map fst (calls (snd (analyze (mkWorld (after handleReset s) []))))
            = []).
    by rewrite Hrun.
  - reflexivity.
Qed.

(** Choosing a file is enough to start an analysis: the first file of the
    picker becomes the session's file, nothing else changes, and
    [handleAnalyze] then calls the profile endpoint with it even when the
    text is empty.  A picker closed without a file changes nothing. *)
Theorem file_choice_enables_analysis (s : Session) (first : File)
  (more : list File) :
  after (handleFileChange (Some (first :: more))) s = setFile (Some first) s /\
  head (calls_of analyze (after (handleFileChange (Some (first :: more))) s))
    = Some (CallProfile (input s) (Some first) (language s)) /\
  after (handleFileChange None) s = s /\
  after (handleFileChange (Some [])) s = s.
Proof.
  split; [reflexivity|]. split; [|by destruct s].
  assert (nothing_to_analyze (input (setFile (Some first) s))
            (file (setFile (Some first) s)) = false) as Hgo.
  { unfold nothing_to_analyze. apply andb_false_intro2. reflexivity. }
  pose proof (insights_called_only_after_profile_aux (setFile (Some first) s) Hgo)
    as H.
  change (after (handleFileChange (Some (first :: more))) s)
    with (setFile (Some first) s).
  destruct H as [[r H]|H]; rewrite H; reflexivity.
Qed.


(** Without a profile there is no report element and the handler does
    nothing. *)
Lemma download_without_profile (s : Session) (save : Completion unit) :
  profileData s = None -> after (handleDownloadPdf save) s = s.
Proof.
  intros Hp. unfold after, run, handleDownloadPdf. cbn. rewrite Hp.
  reflexivity.
Qed.

(** As long as every stored profile is truthy, the input form is shown
    exactly when [isIdle] holds. *)
Lemma isIdle_with_truthy_profiles (s : Session) :
  isIdle s = negb (has_profile (fun _ => true) s) && negb (isAnalyzingProfile s).
Proof. unfold isIdle, has_profile. by destruct (profileData s). Qed.


End Runs.

Import Samples.

Lemma stage1_failure_reaches_errored_witness :
  nothing_to_analyze (input typed) (file typed) = false /\
  Errored (after (handleAnalyze profile_fails insights_ok) typed) /\
  length (List.filter is_insights_call
            (calls_of (handleAnalyze profile_fails insights_ok) typed)) = 0.
Proof.
  split; [reflexivity|].
  pose proof (stage1_failure_reaches_errored profile_fails insights_ok typed
                (ErrorObject "Failed to analyze profile.")
                eq_refl eq_refl) as H.
  split; [apply H|]. apply H.
Defined.

Lemma stage2_failure_keeps_profile_witness :
  nothing_to_analyze (input typed) (file typed) = false /\
  profileData (after (handleAnalyze profile_ok insights_fail) typed)
    = Some "Choco Bar" /\
  allSources (after (handleAnalyze profile_ok insights_fail) typed) = ["A"; "B"].
Proof.
  split; [reflexivity|].
  pose proof (stage2_failure_keeps_profile profile_ok insights_fail typed
                (mkProfileResult "Choco Bar" ["A"; "B"])
                (ErrorObject "Failed to generate insights.")
                eq_refl eq_refl eq_refl) as H.
  split; apply H.
Defined.

Lemma merged_sources_are_the_union_witness :
  nothing_to_analyze (input typed) (file typed) = false /\
  list_to_set (allSources (after (handleAnalyze profile_ok insights_ok) typed))
    =@{gset string} {["A"; "B"; "C"]}.
Proof.
  split; [reflexivity|].
  pose proof (merged_sources_are_the_union profile_ok insights_ok typed
                (mkProfileResult "Choco Bar" ["A"; "B"])
                (mkInsights tt (Some ["B"; "C"])) ["B"; "C"]
                eq_refl eq_refl eq_refl eq_refl) as (_ & _ & H).
  apply (H "A" "B" "C"); reflexivity.
Defined.

Lemma start_without_input_is_noop_witness :
  input (@initial string unit) = "" /\ file (@initial string unit) = None /\
  after (handleAnalyze profile_ok insights_ok) initial = initial.
Proof.
  split; [reflexivity|]. split; [reflexivity|].
  apply (start_without_input_is_noop profile_ok insights_ok initial);
    reflexivity.
Defined.

Lemma loading_flags_cleared_witness :
  nothing_to_analyze (input typed) (file typed) = false /\
  isAnalyzingProfile (after (handleAnalyze profile_ok insights_fail) typed) = false /\
  isAnalyzingInsights (after (handleAnalyze profile_ok insights_fail) typed) = false.
Proof.
  split; [reflexivity|].
  apply (loading_flags_cleared profile_ok insights_fail typed). reflexivity.
Defined.

(** C5 as stated fails: a session whose stage 2 failed still carries the
    error after [handleReset]. *)
Lemma reset_keeps_the_error :
  error stage2_failed = Some "Failed to generate insights." /\
  error (after handleReset stage2_failed) = Some "Failed to generate insights." /\
  ~ (error (after handleReset stage2_failed) = None).
Proof. repeat split; try reflexivity. discriminate. Qed.

Lemma both_succeed_reaches_complete_witness :
  nothing_to_analyze (input typed) (file typed) = false /\
  Complete (after (handleAnalyze profile_ok insights_ok) typed).
Proof.
  split; [reflexivity|].
  apply (both_succeed_reaches_complete profile_ok insights_ok typed
           (mkProfileResult "Choco Bar" ["A"; "B"])
           (mkInsights tt (Some ["B"; "C"])) eq_refl eq_refl eq_refl).
Defined.

Lemma stage1_success_starts_stage2_witness :
  nothing_to_analyze (input typed) (file typed) = false /\
  exists during,
    calls (run (handleAnalyze profile_ok insights_fail) typed) !! 1%nat =
      Some (CallInsights "Choco Bar 50g" None "Choco Bar" VN, during) /\
    InsightsLoading during.
Proof.
  split; [reflexivity|].
  destruct (stage1_success_starts_stage2 profile_ok insights_fail typed
              (mkProfileResult "Choco Bar" ["A"; "B"]) eq_refl eq_refl)
    as (during & Hcall & Hloading & _).
  exists during. split; [exact Hcall|exact Hloading].
Defined.

Lemma analysis_ignores_previous_results_witness :
  input stage2_failed = input typed /\
  error stage2_failed <> error typed /\
  after (handleAnalyze profile_ok insights_ok) stage2_failed =
    after (handleAnalyze profile_ok insights_ok) typed.
Proof.
  split; [reflexivity|]. split; [discriminate|].
  apply (analysis_ignores_previous_results profile_ok insights_ok
           stage2_failed typed); reflexivity.
Defined.

Lemma insights_called_only_after_profile_witness :
  nothing_to_analyze (input typed) (file typed) = false /\
  calls_of (handleAnalyze profile_fails insights_ok) typed =
    [CallProfile "Choco Bar 50g" None VN].
Proof.
  split; [reflexivity|].
  apply (insights_called_only_after_profile profile_fails insights_ok typed).
  reflexivity.
Defined.



End AppFacts.

(** * Properties of the string helpers *)

Module TextFacts.
Import Js.

Local Open Scope string_scope.

Lemma append_cons (c : ascii) (s t : string) : String c s ++ t = String c (s ++ t).
Proof. reflexivity. Qed.

Lemma append_empty_r (s : string) : s ++ "" = s.
Proof.
  induction s as [|c s IH]; [done|]. by rewrite append_cons, IH.
Qed.

Lemma append_assoc (s t u : string) : (s ++ t) ++ u = s ++ t ++ u.
Proof.
  induction s as [|c s IH]; [done|]. by rewrite !append_cons, IH.
Qed.

Lemma not_backtick (c : ascii) :
  negb (is_backtick c) = true -> Ascii.eqb "`" c = false.
Proof.
  unfold is_backtick. rewrite Ascii.eqb_sym. by intros ->%negb_true_iff.
Qed.

(** A stretch without backticks is copied as it is. *)
Lemma remove_from_copy (pat' body rest : string) :
  all_chars (fun c => negb (is_backtick c)) body = true ->
  remove_from (String "`" pat') 0 (body ++ rest) =
    body ++ remove_from (String "`" pat') 0 rest.
Proof.
  induction body as [|c body IH]; intros Hbody; [done|].
  cbn in Hbody. apply andb_true_iff in Hbody as [Hc Hbody].
  rewrite !append_cons. cbn [remove_from starts_with].
  rewrite (not_backtick c Hc). cbn [andb]. by rewrite IH.
Qed.

Lemma remove_from_skip (pat u rest : string) :
  remove_from pat (String.length u) (u ++ rest) = remove_from pat 0 rest.
Proof.
  induction u as [|c u IH]; [done|]. rewrite append_cons. cbn. exact IH.
Qed.

Lemma starts_with_cons (p c : ascii) (pat s : string) :
  starts_with (String p pat) (String c s) = Ascii.eqb p c && starts_with pat s.
Proof. reflexivity. Qed.

Lemma starts_with_itself (pat rest : string) : starts_with pat (pat ++ rest) = true.
Proof.
  induction pat as [|c pat IH]; [done|]. rewrite append_cons. cbn.
  by rewrite Ascii.eqb_refl, IH.
Qed.

(** A match is dropped whole. *)
Lemma remove_from_match (c : ascii) (pat' rest : string) :
  remove_from (String c pat') 0 (String c pat' ++ rest) =
    remove_from (String c pat') 0 rest.
Proof.
  pose proof (starts_with_itself (String c pat') rest) as Hm.
  rewrite append_cons in Hm |- *. cbn [remove_from]. rewrite Hm.
  replace (String.length (String c pat') - 1)%nat with (String.length pat')
    by (cbn [String.length]; lia).
  apply remove_from_skip.
Qed.

(** A backtick that opens no match is copied. *)
Lemma remove_from_backtick (pat' rest : string) :
  starts_with pat' rest = false ->
  remove_from (String "`" pat') 0 (String "`" rest) =
    String "`" (remove_from (String "`" pat') 0 rest).
Proof.
  intros H. cbn [remove_from starts_with]. by rewrite Ascii.eqb_refl, H.
Qed.

Lemma starts_with_before_fence (u body : string) :
  all_chars (fun c => negb (is_backtick c)) u = true ->
  starts_with u (body ++ "```") = starts_with u body.
Proof.
  revert body. induction u as [|a u IH]; intros body Hu; [by destruct body|].
  cbn in Hu. apply andb_true_iff in Hu as [Ha Hu].
  destruct body as [|c body].
  - change ("" ++ "```") with "```". cbn [starts_with].
    unfold is_backtick in Ha. apply negb_true_iff in Ha. by rewrite Ha.
  - rewrite append_cons. cbn [starts_with]. by rewrite IH.
Qed.

Lemma remove_all_plain (pat' s : string) :
  all_chars (fun c => negb (is_backtick c)) s = true ->
  remove_all (String "`" pat') s = s.
Proof.
  intros Hs. unfold remove_all.
  pose proof (remove_from_copy pat' s "" Hs) as H.
  rewrite append_empty_r in H. rewrite H. cbn. apply append_empty_r.
Qed.

Lemma until_comma_plain (s : string) :
  all_chars (fun c => negb (is_comma c)) s = true -> Client.until_comma s = s.
Proof.
  induction s as [|c s IH]; intros Hs; [done|].
  cbn in Hs. apply andb_true_iff in Hs as [Hc Hs].
  cbn [Client.until_comma]. unfold is_comma in Hc. apply negb_true_iff in Hc.
  rewrite Hc. by rewrite IH.
Qed.

Lemma second_piece_after_prefix (prefix rest : string) :
  all_chars (fun c => negb (is_comma c)) prefix = true ->
  Client.second_piece (prefix ++ String "," rest) = Some (Client.until_comma rest).
Proof.
  induction prefix as [|c prefix IH]; intros Hp; [done|].
  cbn in Hp. apply andb_true_iff in Hp as [Hc Hp].
  rewrite append_cons. cbn [Client.second_piece]. unfold is_comma in Hc.
  apply negb_true_iff in Hc. rewrite Hc. by apply IH.
Qed.

Lemma second_piece_without_comma (s : string) :
  all_chars (fun c => negb (is_comma c)) s = true -> Client.second_piece s = None.
Proof.
  induction s as [|c s IH]; intros Hs; [done|].
  cbn in Hs. apply andb_true_iff in Hs as [Hc Hs].
  cbn [Client.second_piece]. unfold is_comma in Hc. apply negb_true_iff in Hc.
  rewrite Hc. by apply IH.
Qed.

Lemma drop_while_all (p : ascii -> bool) (s : string) :
  all_chars p s = true -> drop_while p s = "".
Proof.
  induction s as [|c s IH]; intros Hs; [done|].
  cbn in Hs. apply andb_true_iff in Hs as [Hc Hs].
  cbn [drop_while]. rewrite Hc. by apply IH.
Qed.

Lemma drop_while_skip (p : ascii -> bool) (skipped s : string) :
  all_chars p skipped = true -> drop_while p (skipped ++ s) = drop_while p s.
Proof.
  induction skipped as [|c skipped IH]; intros Hs; [done|].
  cbn in Hs. apply andb_true_iff in Hs as [Hc Hs].
  rewrite append_cons. cbn [drop_while]. rewrite Hc. by apply IH.
Qed.

Lemma take_while_run (p : ascii -> bool) (run rest : string) :
  all_chars p run = true -> stops p rest = true ->
  take_while p (run ++ rest) = run.
Proof.
  intros Hrun Hrest. induction run as [|c run IH].
  - destruct rest as [|d rest]; [done|].
    change (take_while p (String d rest) = ""). cbn [take_while].
    cbn in Hrest. apply negb_true_iff in Hrest. by rewrite Hrest.
  - cbn in Hrun. apply andb_true_iff in Hrun as [Hc Hrun].
    rewrite append_cons. cbn [take_while]. rewrite Hc. by rewrite IH.
Qed.

End TextFacts.

(** * Properties of the analysis client *)

Module ClientFacts.
Import Js Client.

Lemma push_source_ok (chunk : value) (sources : list value) :
  nullish chunk = false ->
  push_source chunk sources =
    Normal (sources ++ List.filter truthy [web_uri chunk]).
Proof.
  intros Hchunk. unfold push_source, web_uri.
  destruct chunk as [| |b|n|s|items|fields]; try discriminate Hchunk;
    cbn; rewrite ?app_nil_r; try reflexivity.
  destruct (lookup_field "web" fields) as [| |b|n|s|items|web] eqn:Hweb;
    cbn; rewrite ?app_nil_r; try reflexivity.
  destruct (truthy (lookup_field "uri" web)) eqn:Huri; cbn.
  - reflexivity.
  - by rewrite app_nil_r.
Qed.

Lemma forEach_push_ok (chunks : list value) (sources : list value) :
  Forall (fun chunk => nullish chunk = false) chunks ->
  forEach_push chunks sources =
    Normal (sources ++ List.filter truthy (map web_uri chunks)).
Proof.
  intros Hok. revert sources.
  induction Hok as [|chunk chunks Hchunk _ IH]; intros sources; cbn.
  - by rewrite app_nil_r.
  - rewrite (push_source_ok chunk sources Hchunk). cbn. rewrite IH.
    destruct (truthy (web_uri chunk)); cbn; [|by rewrite app_nil_r].
    by rewrite <- app_assoc.
Qed.

(** Reading the chunk list never throws on a response that is an
    object, whatever lies (or is missing) on the path. *)
Lemma groundingChunks_of_total (response : value) :
  nullish response = false ->
  groundingChunks_of response = Normal (groundingChunks response).
Proof.
  intros Hresp. unfold groundingChunks, groundingChunks_of.
  destruct (get response "candidates") as [candidates|e] eqn:Hc.
  - cbn. destruct (get_opt (first_opt candidates) "groundingMetadata")
      as [metadata|e] eqn:Hm.
    + cbn. destruct (get_opt metadata "groundingChunks") eqn:Hg; [done|].
      unfold get_opt in Hg. destruct metadata; cbn in Hg; discriminate.
    + unfold get_opt in Hm.
      destruct (first_opt candidates); cbn in Hm; discriminate.
  - destruct response; cbn in Hc, Hresp; discriminate.
Qed.

Lemma forEach_push_nullish (chunks : list value) (sources : list value) :
  Exists (fun chunk => nullish chunk = true) chunks ->
  forEach_push chunks sources = Abrupt TypeError.
Proof.
  revert sources. induction chunks as [|chunk chunks IH]; intros sources Hbad.
  - inversion Hbad.
  - cbn. destruct (nullish chunk) eqn:Hchunk.
    + destruct chunk; cbn in Hchunk; try discriminate; reflexivity.
    + rewrite (push_source_ok chunk sources Hchunk). cbn. apply IH.
      inversion Hbad as [? ? Hhere|? ? Hlater]; subst; [congruence|done].
  Qed.

(** On every other response object the helper throws. *)
Lemma extractSources_throws_otherwise (response : value) :
  nullish response = false ->
  ~ chunk_list_ok (groundingChunks response) ->
  extractSources response = Abrupt TypeError.
Proof.
  intros Hresp Hbad. unfold extractSources.
  rewrite (groundingChunks_of_total _ Hresp). cbn -[truthy].
  destruct (groundingChunks response) as [| |b|n|s|items|fields] eqn:Hgc;
    cbv [chunk_list_ok] in Hbad;
    try (destruct (truthy _) eqn:Ht; [reflexivity|done]).
  cbn -[forEach_push]. rewrite forEach_push_nullish; [reflexivity|].
  apply not_Forall_Exists in Hbad; [|intros c; unfold Decision; decide equality].
  eapply Exists_impl; [exact Hbad|]. cbn. intros c Hc.
  by destruct (nullish c).
Qed.

(** C8 (amended): on a response object whose chunk list is absent or is
    an array without [null] entries, [extractSources] does not throw: it
    returns the web URIs of the chunks that have one, in order of first
    occurrence and without repetition; without a chunk list the result
    is empty. *)
Theorem extractSources_on_well_formed (response : value) :
  nullish response = false ->
  chunk_list_ok (groundingChunks response) ->
  extractSources response =
    Normal (Array_from_Set sameValueZero (cited (groundingChunks response))) /\
  distinct sameValueZero
    (Array_from_Set sameValueZero (cited (groundingChunks response))) /\
  (forall uri, uri ∈ Array_from_Set sameValueZero (cited (groundingChunks response)) ->
               uri ∈ cited (groundingChunks response)) /\
  (truthy (groundingChunks response) = false ->
   extractSources response = Normal []).
Proof.
  intros Hresp Hok.
  assert (extractSources response =
            Normal (Array_from_Set sameValueZero
                      (cited (groundingChunks response)))) as Hrun.
  { unfold extractSources. rewrite (groundingChunks_of_total _ Hresp).
    cbn -[truthy].
    destruct (groundingChunks response) as [| |b|n|s|items|fields] eqn:Hgc;
      cbv [chunk_list_ok] in Hok;
      try (rewrite Hok; reflexivity).
    cbn -[forEach_push]. rewrite (forEach_push_ok items [] Hok). reflexivity. }
  split; [exact Hrun|]. split; [apply SetFacts.Array_from_Set_distinct|].
  split; [intros uri; apply SetFacts.Set_add_all_sublist|].
  intros Hfalsy. rewrite Hrun.
  destruct (groundingChunks response); cbn in Hfalsy |- *;
    try reflexivity; discriminate.
Qed.

Lemma catch_rethrow_abrupt {A} (body : Completion A) (e : Thrown) :
  catch_rethrow body e = Abrupt e <-> exists e', body = Abrupt e'.
Proof.
  destruct body as [a|e']; cbn; split.
  - discriminate.
  - intros [? ?]. discriminate.
  - eauto.
  - reflexivity.
Qed.

Lemma profile_attempt_abrupt (env : Env) (request : Request) :
  (exists e, profile_attempt env request = Abrupt e) <->
  (exists e, generateContent env request = Abrupt e) \/
  (exists response,
      generateContent env request = Normal response /\
      ((exists e, result_text response = Abrupt e) \/
       (exists text, result_text response = Normal text /\
                     JSON_parse env (strip_fences text) = None) \/
       (exists text data, result_text response = Normal text /\
                          JSON_parse env (strip_fences text) = Some data /\
                          nullish data = true) \/
       (exists e, extractSources response = Abrupt e))).
Proof.
  unfold profile_attempt, parse.
  destruct (generateContent env request) as [response|e0]; cbn.
  2:{ split; [intros _; left; eauto|intros _; eauto]. }
  destruct (result_text response) as [text|e1] eqn:Htext; cbn.
  2:{ split; [|intros _; eauto].
      intros _. right. exists response. split; [done|]. left. eauto. }
  destruct (JSON_parse env (strip_fences text)) as [data|] eqn:Hparse; cbn.
  2:{ split; [|intros _; eauto].
      intros _. right. exists response. split; [done|]. right. left. eauto. }
  destruct (extractSources response) as [uris|e2] eqn:Huris; cbn.
  2:{ split; [|intros _; eauto].
      intros _. right. exists response. split; [done|]. do 3 right. eauto. }
  split.
  - intros [e He]. right. exists response. split; [done|]. right. right. left.
    exists text, data. repeat split; try done.
    destruct data; cbn in He |- *; done.
  - intros [[e He]|(r & Hr & Hcases)]; [discriminate He|].
    injection Hr as <-.
    destruct Hcases as [[e He]|[(t & Ht & Hnone)|[(t & d & Ht & Hd & Hnull)|[e He]]]].
    + congruence.
    + congruence.
    + assert (d = data) as -> by congruence.
      destruct data; cbn in Hnull |- *; try discriminate; eauto.
    + congruence.
Qed.

(** C4 (amended): without a credential the call fails with the
    configuration error and a failed media read is passed on as it is;
    otherwise the call fails, and then with the profile error, exactly
    when the network call errors, the response has no readable text, the
    text is not valid JSON after the code fences are stripped, the parsed
    document is [null], or reading the sources throws.  A parsed object
    is never a failure: the profile returned is the value under its
    [profile] key, [undefined] when the key is absent. *)
Theorem profile_failure_cases (env : Env) (text : string)
  (mediaFile : option App.File) (language : string) :
  (truthy_string (API_KEY env) = false ->
   analyzeProductProfile env text mediaFile language = Abrupt missing_key_error) /\
  (truthy_string (API_KEY env) = true ->
   match encode_media mediaFile with
   | Abrupt e =>
       e = NonError /\
       analyzeProductProfile env text mediaFile language = Abrupt NonError
   | Normal media =>
       let request := profile_request text media language in
       (forall e, analyzeProductProfile env text mediaFile language = Abrupt e ->
                  e = profile_error) /\
       (analyzeProductProfile env text mediaFile language = Abrupt profile_error <->
        (exists e, generateContent env request = Abrupt e) \/
        (exists response,
            generateContent env request = Normal response /\
            ((exists e, result_text response = Abrupt e) \/
             (exists body, result_text response = Normal body /\
                           JSON_parse env (strip_fences body) = None) \/
             (exists body data, result_text response = Normal body /\
                                JSON_parse env (strip_fences body) = Some data /\
                                nullish data = true) \/
             (exists e, extractSources response = Abrupt e)))) /\
       (forall response body fields uris,
           generateContent env request = Normal response ->
           result_text response = Normal body ->
           JSON_parse env (strip_fences body) = Some (object fields) ->
           extractSources response = Normal uris ->
           analyzeProductProfile env text mediaFile language =
             Normal (mkProfileResult (lookup_field "profile" fields) uris))
   end).
Proof.
  unfold analyzeProductProfile. split.
  - intros ->. reflexivity.
  - intros ->. cbn [negb].
    destruct (encode_media mediaFile) as [media|e] eqn:Hmedia; cbn.
    + split; [|split].
      * intros e. destruct (profile_attempt env _); cbn; congruence.
      * rewrite catch_rethrow_abrupt. apply profile_attempt_abrupt.
      * intros response t fields uris Hgen Htext Hparse Huris.
        unfold profile_attempt, parse. rewrite Hgen. cbn. rewrite Htext. cbn.
        rewrite Hparse. cbn. rewrite Huris. reflexivity.
    + assert (e = NonError) as ->; [|done].
      destruct mediaFile as [f|]; [|discriminate Hmedia].
      cbn in Hmedia. unfold fileToBase64 in Hmedia.
      destruct (App.file_dataURL f); cbn in Hmedia;
        unfold mret, completion_ret in Hmedia; congruence.
Qed.

Import Samples.

Lemma extractSources_on_well_formed_witness :
  nullish cites_A_B_A = false /\
  chunk_list_ok (groundingChunks cites_A_B_A) /\
  extractSources cites_A_B_A =
    Normal [str "https://a.example"; str "https://b.example"] /\
  extractSources bare = Normal [].
Proof.
  assert (chunk_list_ok (groundingChunks cites_A_B_A)) as Hok.
  { cbn. repeat constructor. }
  split; [reflexivity|]. split; [exact Hok|]. split.
  - apply (extractSources_on_well_formed cites_A_B_A eq_refl Hok).
  - apply (extractSources_on_well_formed bare eq_refl eq_refl). reflexivity.
Defined.

(** C8 as stated fails: malformed metadata makes [extractSources]
    throw. *)
Lemma extractSources_throws_on_malformed :
  extractSources null_chunk = Abrupt TypeError /\
  extractSources chunks_not_an_array = Abrupt TypeError.
Proof. split; reflexivity. Qed.

Lemma profile_failure_cases_witness :
  truthy_string (API_KEY (env_returning (Abrupt NonError))) = true /\
  analyzeProductProfile (env_returning (Abrupt NonError))
    "Choco Bar 50g" None "en" = Abrupt profile_error.
Proof.
  split; [reflexivity|].
  pose proof (profile_failure_cases (env_returning (Abrupt NonError))
                "Choco Bar 50g" None "en") as [_ H].
  specialize (H eq_refl). cbn in H. destruct H as (_ & H & _).
  apply H. left. exists NonError. reflexivity.
Defined.

(** C4 as stated fails: a response whose JSON document has no [profile]
    key is not a failure; the call returns an undefined profile. *)
Lemma absent_profile_key_is_no_failure :
  result_text fenced_empty_object = Normal fenced_text /\
  strip_fences fenced_text = "{}" /\
  lookup_field "profile" [] = undefined /\
  analyzeProductProfile (env_returning (Normal fenced_empty_object))
    "Choco Bar 50g" None "en" = Normal (mkProfileResult undefined []) /\
  analyzeProductProfile (env_returning (Normal fenced_empty_object))
    "Choco Bar 50g" None "en" <> Abrupt profile_error.
Proof. repeat split; try reflexivity. discriminate. Qed.

(** *** Code fences *)

Section Fences.
Local Open Scope string_scope.

Lemma no_fence_left (body : string) :
  all_chars (fun c => negb (is_backtick c)) body = true ->
  remove_from "```json" 0 (body ++ "```") = body ++ "```" /\
  remove_from "```" 0 (body ++ "```") = body.
Proof.
  intros Hbody. split.
  - rewrite (TextFacts.remove_from_copy _ _ _ Hbody). reflexivity.
  - rewrite (TextFacts.remove_from_copy _ _ _ Hbody).
    change (remove_from "```" 0 "```") with "".
    apply TextFacts.append_empty_r.
Qed.

(** A document wrapped in a [json] code fence is unwrapped: what is
    parsed is the text before the fence followed by the fenced body,
    trimmed. *)
Theorem strip_fences_unwraps_json_fence (before body : string) :
  all_chars (fun c => negb (is_backtick c)) before = true ->
  all_chars (fun c => negb (is_backtick c)) body = true ->
  strip_fences (before ++ "```json" ++ body ++ "```") = trim (before ++ body).
Proof.
  intros Hpre Hbody. unfold strip_fences, remove_all.
  destruct (no_fence_left body Hbody) as [H1 H2].
  rewrite (TextFacts.remove_from_copy _ _ _ Hpre).
  rewrite (TextFacts.remove_from_match "`" "``json" (body ++ "```")).
  rewrite H1.
  rewrite (TextFacts.remove_from_copy _ _ _ Hpre).
  rewrite (TextFacts.remove_from_copy _ _ _ Hbody).
  change (remove_from "```" 0 "```") with "".
  by rewrite TextFacts.append_empty_r.
Qed.

(** The same for a fence without a language tag, as long as the body
    does not itself begin with the letters of the tag. *)
Theorem strip_fences_unwraps_plain_fence (before body : string) :
  all_chars (fun c => negb (is_backtick c)) before = true ->
  all_chars (fun c => negb (is_backtick c)) body = true ->
  starts_with "json" body = false ->
  strip_fences (before ++ "```" ++ body ++ "```") = trim (before ++ body).
Proof.
  intros Hpre Hbody Htag. unfold strip_fences, remove_all.
  destruct (no_fence_left body Hbody) as [H1 H2].
  rewrite (TextFacts.remove_from_copy _ _ _ Hpre).
  change ("```" ++ body ++ "```")
    with (String "`" (String "`" (String "`" (body ++ "```")))).
  assert (starts_with "json" (body ++ "```") = false) as Htag'.
  { rewrite (TextFacts.starts_with_before_fence "json" body eq_refl).
    exact Htag. }
  assert (starts_with "`json" (body ++ "```") = false
          /\ starts_with "``json" (body ++ "```") = false) as [Ha Hb].
  { destruct body as [|c body]; [split; reflexivity|].
    cbn [all_chars] in Hbody. apply andb_true_iff in Hbody as [Hc _].
    rewrite TextFacts.append_cons, !TextFacts.starts_with_cons.
    by rewrite (TextFacts.not_backtick c Hc). }
  rewrite (TextFacts.remove_from_backtick "``json"
             (String "`" (String "`" (body ++ "```")))).
  2:{ rewrite !TextFacts.starts_with_cons, !Ascii.eqb_refl. exact Htag'. }
  rewrite (TextFacts.remove_from_backtick "``json" (String "`" (body ++ "```"))).
  2:{ rewrite TextFacts.starts_with_cons, Ascii.eqb_refl. exact Ha. }
  rewrite (TextFacts.remove_from_backtick "``json" (body ++ "```") Hb).
  rewrite H1.
  rewrite (TextFacts.remove_from_copy "``" before _ Hpre).
  change (String "`" (String "`" (String "`" (body ++ "```"))))
    with ("```" ++ (body ++ "```")).
  rewrite (TextFacts.remove_from_match "`" "``" (body ++ "```")).
  by rewrite H2.
Qed.

(** A text without backticks is only trimmed. *)
Theorem strip_fences_without_backticks (text : string) :
  all_chars (fun c => negb (is_backtick c)) text = true ->
  strip_fences text = trim text.
Proof.
  intros Htext. unfold strip_fences.
  by rewrite !(TextFacts.remove_all_plain _ _ Htext).
Qed.

End Fences.

(** *** Media *)

(** [fileToBase64] strips the data-URL header: for a URL made of a
    header, a comma and a payload, neither holding a comma, it yields the
    payload. *)
Theorem fileToBase64_strips_header (f : App.File) (header payload : string) :
  App.file_dataURL f = Some (header ++ "," ++ payload)%string ->
  all_chars (fun c => negb (is_comma c)) header = true ->
  all_chars (fun c => negb (is_comma c)) payload = true ->
  fileToBase64 f = Normal (Some payload).
Proof.
  intros Hurl Hheader Hpayload. unfold fileToBase64. rewrite Hurl.
  change ("," ++ payload)%string with (String "," payload).
  rewrite (TextFacts.second_piece_after_prefix _ _ Hheader).
  by rewrite (TextFacts.until_comma_plain _ Hpayload).
Qed.

(** A file that was read but has an empty content type, or whose data URL
    has no payload, is left out without any error: both requests are the
    ones sent for no file at all. *)
Theorem media_without_type_or_payload_is_dropped (f : App.File)
  (media : option string * option string) (text language : string)
  (profile : value) :
  encode_media (Some f) = Normal media ->
  App.file_type f = "" \/ fst media = None \/ fst media = Some "" ->
  profile_request text media language =
    profile_request text (None, None) language /\
  insights_request text media profile language =
    insights_request text (None, None) profile language.
Proof.
  intros Hmedia Hcase.
  assert (media_parts (fst media) (snd media) = []) as Hparts.
  { unfold encode_media, fileToBase64 in Hmedia.
    destruct (App.file_dataURL f) as [url|]; [|discriminate Hmedia].
    injection Hmedia as <-. cbn [fst snd] in *. unfold media_parts.
    destruct (second_piece url) as [d|]; [|done].
    destruct Hcase as [->|[Hd|Hd]]; [|discriminate Hd|].
    - by rewrite andb_false_r.
    - by injection Hd as ->. }
  unfold profile_request, insights_request. by rewrite Hparts.
Qed.

(** *** Sources *)

Lemma extractSources_distinct (response : value) (uris : list value) :
  extractSources response = Normal uris -> distinct sameValueZero uris.
Proof.
  unfold extractSources.
  destruct (groundingChunks_of response) as [chunks|]; [|discriminate].
  cbn -[truthy].
  match goal with
  | |- context [mbind _ ?m] => destruct m as [found|]; [|discriminate]
  end.
  cbn. intros [= <-]. apply SetFacts.Array_from_Set_distinct.
Qed.

(** Only the first candidate of a response is read: what the other
    candidates cite never reaches the sources. *)
Theorem extractSources_reads_first_candidate (fields : list (string * value))
  (first : value) (others : list value) :
  lookup_field "candidates" fields = array (first :: others) ->
  extractSources (object fields) =
    extractSources (object [("candidates", array [first])]).
Proof.
  intros Hc. unfold extractSources, groundingChunks_of.
  cbn [get]. rewrite Hc. reflexivity.
Qed.

Lemma extractSources_run (response : value) :
  nullish response = false ->
  chunk_list_ok (groundingChunks response) ->
  extractSources response =
    Normal (Array_from_Set sameValueZero (cited (groundingChunks response))).
Proof.
  intros Hresp Hok. unfold extractSources.
  rewrite (groundingChunks_of_total _ Hresp). cbn -[truthy].
  destruct (groundingChunks response) as [| |b|n|s|items|fields] eqn:Hgc;
    cbv [chunk_list_ok] in Hok;
    try (rewrite Hok; reflexivity).
  cbn -[forEach_push]. rewrite (forEach_push_ok items [] Hok). reflexivity.
Qed.

(** Deduplication loses no page: every URI text cited by some chunk is
    in the result, exactly once. *)
Theorem extractSources_keeps_every_uri (response : value) (uri : string) :
  nullish response = false ->
  chunk_list_ok (groundingChunks response) ->
  str uri ∈ cited (groundingChunks response) ->
  exists uris,
    extractSources response = Normal uris /\
    length (List.filter (sameValueZero (str uri)) uris) = 1%nat.
Proof.
  intros Hresp Hok Hcited. eexists. split; [by apply extractSources_run|].
  assert (forall y, sameValueZero (str uri) y = true -> str uri = y) as Honly.
  { intros y Hy. destruct y; cbn in Hy; try discriminate.
    by apply String.eqb_eq in Hy as ->. }
  assert (sameValueZero (str uri) (str uri) = true) as Hrefl
    by apply String.eqb_refl.
  pose proof (SetFacts.Set_add_all_keeps sameValueZero []
                (cited (groundingChunks response)) (str uri)
                Hrefl Honly Hcited eq_refl) as Hin.
  pose proof (SetFacts.Array_from_Set_distinct sameValueZero
                (cited (groundingChunks response))) as Hdistinct.
  unfold Array_from_Set in *.
  induction (Set_add_all sameValueZero [] (cited (groundingChunks response)))
    as [|x xs IH]; [by inversion Hin|].
  destruct Hdistinct as [Hx Hxs]. cbn [List.filter].
  destruct (sameValueZero (str uri) x) eqn:Hsame.
  - apply Honly in Hsame as <-. cbn [length]. f_equal.
    clear IH Hin Hxs. induction Hx as [|y ys Hy _ IH]; [done|].
    cbn [List.filter]. destruct (sameValueZero (str uri) y) eqn:Hy'; [|exact IH].
    apply Honly in Hy' as <-. congruence.
  - apply elem_of_cons in Hin as [<-|Hin]; [congruence|]. by apply IH.
Qed.

(** *** Stage 2 *)

Lemma insights_attempt_abrupt (env : Env) (request : Request) :
  (exists e, insights_attempt env request = Abrupt e) <->
  (exists e, generateContent env request = Abrupt e) \/
  (exists response,
      generateContent env request = Normal response /\
      ((exists e, result_text response = Abrupt e) \/
       (exists body, result_text response = Normal body /\
                     JSON_parse env (strip_fences body) = None) \/
       (exists e, extractSources response = Abrupt e))).
Proof.
  unfold insights_attempt, parse.
  destruct (generateContent env request) as [response|e0]; cbn.
  2:{ split; [intros _; left; eauto|intros _; eauto]. }
  destruct (result_text response) as [text|e1] eqn:Htext; cbn.
  2:{ split; [|intros _; eauto].
      intros _. right. exists response. split; [done|]. left. eauto. }
  destruct (JSON_parse env (strip_fences text)) as [data|] eqn:Hparse; cbn.
  2:{ split; [|intros _; eauto].
      intros _. right. exists response. split; [done|]. right. left. eauto. }
  destruct (extractSources response) as [uris|e2] eqn:Huris; cbn.
  2:{ split; [|intros _; eauto].
      intros _. right. exists response. split; [done|]. do 2 right. eauto. }
  split.
  - intros [e He]. discriminate He.
  - intros [[e He]|(r & Hr & Hcases)]; [discriminate He|].
    injection Hr as <-.
    destruct Hcases as [[e He]|[(t & Ht & Hnone)|[e He]]]; congruence.
Qed.

(** [analyzeProductInsights] fails with its own two messages: the
    credential error without a credential, and otherwise the insights error
    exactly when the network call errors, the response has no readable
    text, the text is not valid JSON after the fences are stripped, or
    reading the sources throws.  Every parsed document is accepted, [null]
    and documents without any expected key included: the result is the
    document's own properties with the extracted sources under
    [sources]. *)
Theorem insights_failure_cases (env : Env) (text : string)
  (mediaFile : option App.File) (profile : value) (language : string) :
  (truthy_string (API_KEY env) = false ->
   analyzeProductInsights env text mediaFile profile language
     = Abrupt missing_key_error_insights) /\
  (truthy_string (API_KEY env) = true ->
   forall media, encode_media mediaFile = Normal media ->
     let request := insights_request text media profile language in
     (analyzeProductInsights env text mediaFile profile language
        = Abrupt insights_error <->
      (exists e, generateContent env request = Abrupt e) \/
      (exists response,
          generateContent env request = Normal response /\
          ((exists e, result_text response = Abrupt e) \/
           (exists body, result_text response = Normal body /\
                         JSON_parse env (strip_fences body) = None) \/
           (exists e, extractSources response = Abrupt e)))) /\
     (forall response body data uris,
         generateContent env request = Normal response ->
         result_text response = Normal body ->
         JSON_parse env (strip_fences body) = Some data ->
         extractSources response = Normal uris ->
         analyzeProductInsights env text mediaFile profile language =
           Normal (<["sources" := array uris]> (own_properties data)))).
Proof.
  unfold analyzeProductInsights. split.
  - intros ->. reflexivity.
  - intros -> media Hmedia. cbn [negb]. rewrite Hmedia. cbn. split.
    + rewrite catch_rethrow_abrupt. apply insights_attempt_abrupt.
    + intros response body data uris Hgen Htext Hparse Huris.
      unfold insights_attempt, parse. rewrite Hgen. cbn. rewrite Htext. cbn.
      rewrite Hparse. cbn. rewrite Huris. reflexivity.
Qed.

(** Whatever the model wrote under [sources], a successful stage 2
    carries the sources extracted from the metadata of the very response
    it received: a list without repetitions.  Every other key has the
    value it has in the document parsed from that response. *)
Theorem insights_carry_extracted_sources (env : Env) (text : string)
  (mediaFile : option App.File) (profile : value) (language : string)
  (result : gmap string value) :
  analyzeProductInsights env text mediaFile profile language = Normal result ->
  exists media response body data uris,
    encode_media mediaFile = Normal media /\
    generateContent env (insights_request text media profile language)
      = Normal response /\
    result_text response = Normal body /\
    JSON_parse env (strip_fences body) = Some data /\
    extractSources response = Normal uris /\
    distinct sameValueZero uris /\
    result !! "sources" = Some (array uris) /\
    forall key, key <> "sources" -> result !! key = own_properties data !! key.
Proof.
  unfold analyzeProductInsights.
  destruct (negb (truthy_string (API_KEY env))); [discriminate|].
  destruct (encode_media mediaFile) as [media|]; [|discriminate]. cbn.
  unfold insights_attempt, parse.
  destruct (generateContent env _) as [response|] eqn:Hgen; [|discriminate]. cbn.
  destruct (result_text response) as [body|] eqn:Hbody; [|discriminate]. cbn.
  destruct (JSON_parse env (strip_fences body)) as [data|] eqn:Hdata;
    [|discriminate]. cbn.
  destruct (extractSources response) as [uris|] eqn:Huris; [|discriminate]. cbn.
  intros [= <-]. exists media, response, body, data, uris.
  repeat split; try done.
  - by eapply extractSources_distinct.
  - apply lookup_insert_eq.
  - intros key Hkey. by apply lookup_insert_ne.
Qed.

(** *** What the session shows for a failed stage *)

(** The message the orchestrator records for a failure of either stage is
    one of four fixed texts; the unknown-error text stands for a file that
    could not be read. *)
Theorem failure_messages (env : Env) (text : string)
  (mediaFile : option App.File) (profile : value) (language : string)
  (e : Thrown) :
  analyzeProductProfile env text mediaFile language = Abrupt e \/
  analyzeProductInsights env text mediaFile profile language = Abrupt e ->
  App.message_of e = "API Key is missing. Please check your environment configuration." \/
  App.message_of e = "API Key is missing." \/
  App.message_of e = "Failed to analyze profile." \/
  App.message_of e = "Failed to generate insights." \/
  (App.message_of e = "An unknown error occurred" /\
   exists f, mediaFile = Some f /\ App.file_dataURL f = None).
Proof.
  unfold analyzeProductProfile, analyzeProductInsights.
  destruct (negb (truthy_string (API_KEY env))).
  { intros [[= <-]|[= <-]]; cbn; tauto. }
  destruct (encode_media mediaFile) as [media|e'] eqn:Hmedia; cbn.
  - intros [H|H].
    + destruct (profile_attempt env _); cbn in H; [discriminate|].
      injection H as <-. cbn. tauto.
    + destruct (insights_attempt env _); cbn in H; [discriminate|].
      injection H as <-. cbn. tauto.
  - assert (e' = NonError /\ exists f, mediaFile = Some f /\
                                       App.file_dataURL f = None) as [-> Hf].
    { destruct mediaFile as [f|]; [|discriminate Hmedia].
      cbn in Hmedia. unfold fileToBase64 in Hmedia.
      destruct (App.file_dataURL f) eqn:Hurl; cbn in Hmedia;
        unfold mret, completion_ret in Hmedia; [discriminate|].
      split; [congruence|eauto]. }
    intros [[= <-]|[= <-]]; cbn; tauto.
Qed.

Lemma strip_fences_unwraps_json_fence_witness :
  all_chars (fun c => negb (is_backtick c)) "Here it is: " = true /\
  all_chars (fun c => negb (is_backtick c)) "{}" = true /\
  strip_fences ("Here it is: " ++ "```json" ++ "{}" ++ "```")%string
    = trim ("Here it is: " ++ "{}")%string.
Proof.
  split; [reflexivity|]. split; [reflexivity|].
  apply (strip_fences_unwraps_json_fence "Here it is: " "{}"); reflexivity.
Defined.

Lemma strip_fences_unwraps_plain_fence_witness :
  starts_with "json" "{}" = false /\
  strip_fences ("" ++ "```" ++ "{}" ++ "```")%string = trim ("" ++ "{}")%string.
Proof.
  split; [reflexivity|].
  apply (strip_fences_unwraps_plain_fence "" "{}"); reflexivity.
Defined.

Lemma strip_fences_without_backticks_witness :
  all_chars (fun c => negb (is_backtick c)) " {} " = true /\
  strip_fences " {} " = trim " {} ".
Proof.
  split; [reflexivity|].
  apply (strip_fences_without_backticks " {} "). reflexivity.
Defined.

Lemma fileToBase64_strips_header_witness :
  App.file_dataURL label_photo
    = Some ("data:image/png;base64" ++ "," ++ "iVBORw0KGgo=")%string /\
  fileToBase64 label_photo = Normal (Some "iVBORw0KGgo=").
Proof.
  split; [reflexivity|].
  apply (fileToBase64_strips_header label_photo "data:image/png;base64"
           "iVBORw0KGgo="); reflexivity.
Defined.

Lemma media_without_type_or_payload_is_dropped_witness :
  encode_media (Some untyped_photo) = Normal (Some "iVBORw0KGgo=", Some "") /\
  App.file_type untyped_photo = "" /\
  profile_request "Choco Bar 50g" (Some "iVBORw0KGgo=", Some "") "en" =
    profile_request "Choco Bar 50g" (None, None) "en".
Proof.
  split; [reflexivity|]. split; [reflexivity|].
  apply (media_without_type_or_payload_is_dropped untyped_photo
           (Some "iVBORw0KGgo=", Some "") "Choco Bar 50g" "en" null eq_refl).
  left. reflexivity.
Defined.

Lemma extractSources_reads_first_candidate_witness :
  extractSources two_candidates = Normal [str "https://a.example"].
Proof.
  unfold two_candidates.
  rewrite (extractSources_reads_first_candidate
             [("candidates",
               array [candidate "https://a.example"; candidate "https://c.example"])]
             (candidate "https://a.example") [candidate "https://c.example"]
             eq_refl).
  reflexivity.
Defined.

Lemma extractSources_throws_otherwise_witness :
  nullish chunks_not_an_array = false /\
  ~ chunk_list_ok (groundingChunks chunks_not_an_array) /\
  extractSources chunks_not_an_array = Abrupt TypeError.
Proof.
  assert (~ chunk_list_ok (groundingChunks chunks_not_an_array)) as Hbad.
  { intros H. discriminate H. }
  split; [reflexivity|]. split; [exact Hbad|].
  apply (extractSources_throws_otherwise chunks_not_an_array eq_refl Hbad).
Defined.

Lemma extractSources_keeps_every_uri_witness :
  str "https://b.example" ∈ cited (groundingChunks cites_A_B_A) /\
  exists uris,
    extractSources cites_A_B_A = Normal uris /\
    length (List.filter (sameValueZero (str "https://b.example")) uris) = 1%nat.
Proof.
  assert (str "https://b.example" ∈ cited (groundingChunks cites_A_B_A)) as Hin.
  { right. left. }
  assert (chunk_list_ok (groundingChunks cites_A_B_A)) as Hok.
  { cbn. repeat constructor. }
  split; [exact Hin|].
  apply (extractSources_keeps_every_uri cites_A_B_A "https://b.example"
           eq_refl Hok Hin).
Defined.

Lemma insights_carry_extracted_sources_witness :
  analyzeProductInsights env_with_own_sources "Choco Bar 50g" None
    (str "Choco Bar") "en" =
  Normal (<["sources" := array [str "https://a.example"; str "https://b.example"]]>
            (own_properties
               (object [("sources", str "made up"); ("swot", object [])]))) /\
  exists media response body data uris,
    encode_media None = Normal media /\
    generateContent env_with_own_sources
      (insights_request "Choco Bar 50g" media (str "Choco Bar") "en")
      = Normal response /\
    result_text response = Normal body /\
    JSON_parse env_with_own_sources (strip_fences body) = Some data /\
    extractSources response = Normal uris /\
    distinct sameValueZero uris /\
    (<["sources" := array [str "https://a.example"; str "https://b.example"]]>
       (own_properties (object [("sources", str "made up"); ("swot", object [])]))
     : gmap string value) !! "sources" = Some (array uris) /\
    forall key, key <> "sources" ->
      (<["sources" := array [str "https://a.example"; str "https://b.example"]]>
         (own_properties (object [("sources", str "made up"); ("swot", object [])]))
       : gmap string value) !! key =
      own_properties data !! key.
Proof.
  split; [reflexivity|].
  apply (insights_carry_extracted_sources env_with_own_sources
           "Choco Bar 50g" None (str "Choco Bar") "en").
  reflexivity.
Defined.

Lemma failure_messages_witness :
  analyzeProductProfile (env_returning (Normal bare)) "" (Some unreadable_photo) "en"
    = Abrupt NonError /\
  (App.message_of NonError = "API Key is missing. Please check your environment configuration." \/
   App.message_of NonError = "API Key is missing." \/
   App.message_of NonError = "Failed to analyze profile." \/
   App.message_of NonError = "Failed to generate insights." \/
   (App.message_of NonError = "An unknown error occurred" /\
    exists f, Some unreadable_photo = Some f /\ App.file_dataURL f = None)).
Proof.
  split; [reflexivity|].
  apply (failure_messages (env_returning (Normal bare)) ""
           (Some unreadable_photo) null "en" NonError).
  left. reflexivity.
Defined.

Lemma insights_failure_cases_witness :
  truthy_string (API_KEY env_with_own_sources) = true /\
  analyzeProductInsights env_with_own_sources "Choco Bar 50g" None
    (str "Choco Bar") "en" =
  Normal (<["sources" := array [str "https://a.example"; str "https://b.example"]]>
            (own_properties
               (object [("sources", str "made up"); ("swot", object [])]))).
Proof.
  split; [reflexivity|].
  destruct (insights_failure_cases env_with_own_sources "Choco Bar 50g" None
              (str "Choco Bar") "en") as [_ H].
  destruct (H eq_refl (None, None) eq_refl) as [_ Hok].
  apply (Hok cites_A_B_A "{}"); reflexivity.
Defined.

End ClientFacts.

(** * Properties of the comparison table *)

Module ComparisonFacts.
Import Js Comparison.

(** The examples of the numeric parse. *)
Example parseValue_price : parseValue (Some "12.50 USD") = Fin (25 # 2).
Proof. reflexivity. Qed.
Example parseValue_not_available : parseValue (Some "N/A") = Fin 0.
Proof. reflexivity. Qed.
Example parseValue_empty : parseValue (Some "") = Fin 0.
Proof. reflexivity. Qed.
Example parseValue_absent : parseValue None = Fin 0.
Proof. reflexivity. Qed.
Example parseValue_second_point : parseValue (Some "1.2.3") = Fin (6 # 5).
Proof. reflexivity. Qed.

(** C6: the code does not yield 0 for every non-numeric text: a text
    whose first run of digits and points is a lone point parses to [NaN],
    also when a number follows. *)
Theorem parseValue_lone_point_is_NaN :
  parseValue (Some "N.A.") = NaN /\
  parseValue (Some "approx. 450 kcal") = NaN /\
  first_run "N.A." = Some ".".
Proof. repeat split; reflexivity. Qed.

Lemma digits_value_nonneg (s : string) (acc : Z) :
  (0 <= acc)%Z -> (0 <= digits_value acc s)%Z.
Proof.
  revert acc. induction s as [|c s IH]; intros acc Hacc; cbn; [done|].
  apply IH. lia.
Qed.

Lemma parseFloat_parsed (s : string) : parsed (parseFloat s).
Proof.
  unfold parseFloat.
  match goal with |- context [if ?b then _ else _] => destruct b end;
    cbn; [exact I|].
  rewrite Qred_correct. unfold Qle. cbn.
  pose proof (digits_value_nonneg
                (take_while is_digit s ++
                 match drop_while is_digit s with
                 | String c rest =>
                     if Ascii.eqb c "." then take_while is_digit rest
                     else EmptyString
                 | EmptyString => EmptyString
                 end)%string 0).
  lia.
Qed.

Lemma parseValue_parsed (str : option string) : parsed (parseValue str).
Proof.
  unfold parseValue. destruct str as [s|]; [|cbn; lra].
  destruct (String.eqb s ""); [cbn; lra|].
  destruct (first_run s); [apply parseFloat_parsed|cbn; lra].
Qed.

Lemma fold_max2_NaN (xs : list number) : fold_left max2 xs NaN = NaN.
Proof. induction xs as [|x xs IH]; cbn; [done|exact IH]. Qed.

Import Samples.

(** *** Further properties of the numeric parse *)

Section Parse.
Local Open Scope string_scope.

Lemma first_run_found (skipped run rest : string) :
  all_chars (fun c => negb (in_class c)) skipped = true ->
  all_chars in_class run = true -> run <> "" ->
  stops in_class rest = true ->
  first_run (skipped ++ run ++ rest) = Some run.
Proof.
  intros Hskip Hrun Hne Hrest. unfold first_run.
  rewrite (TextFacts.drop_while_skip _ _ _ Hskip).
  destruct run as [|c run]; [done|].
  pose proof Hrun as Hrun'. cbn in Hrun'.
  apply andb_true_iff in Hrun' as [Hc _].
  rewrite TextFacts.append_cons. cbn [drop_while]. rewrite Hc. cbn [negb].
  rewrite <- TextFacts.append_cons.
  by rewrite (TextFacts.take_while_run _ _ _ Hrun Hrest).
Qed.

(** The value is read from the first run of digits and points and from
    nothing else: any text before it without digits and points (a sign, a
    currency symbol) and everything after it are ignored. *)
Theorem parseValue_reads_first_run (skipped run rest : string) :
  all_chars (fun c => negb (in_class c)) skipped = true ->
  all_chars in_class run = true -> run <> "" ->
  stops in_class rest = true ->
  parseValue (Some (skipped ++ run ++ rest)) = parseFloat run.
Proof.
  intros Hskip Hrun Hne Hrest. unfold parseValue.
  rewrite (first_run_found _ _ _ Hskip Hrun Hne Hrest).
  destruct skipped, run; try done.
Qed.

(** A text without any digit or point parses to 0. *)
Theorem parseValue_without_digits_or_points (s : string) :
  all_chars (fun c => negb (in_class c)) s = true ->
  parseValue (Some s) = Fin 0.
Proof.
  intros Hs. unfold parseValue, first_run.
  rewrite (TextFacts.drop_while_all _ _ Hs). by destruct (String.eqb s "").
Qed.

Lemma point_is_no_digit (c : ascii) : Ascii.eqb c "." = true -> is_digit c = false.
Proof. by intros ->%Ascii.eqb_eq. Qed.

Lemma parseFloat_NaN_iff (s : string) :
  parseFloat s = NaN <-> starts_a_number s = false.
Proof.
  unfold parseFloat, starts_a_number.
  destruct s as [|c rest]; [done|].
  cbn [take_while drop_while].
  destruct (is_digit c) eqn:Hc; [done|]. cbn [String.eqb andb orb].
  destruct (Ascii.eqb c ".") eqn:Hpoint; [|done]. cbn [andb].
  destruct rest as [|d rest]; [done|].
  cbn [take_while]. by destruct (is_digit d).
Qed.

(** The value is [NaN] exactly when the first run of digits and points
    does not begin with a number: it is a point followed by another point
    or by nothing. *)
Theorem parseValue_NaN_iff (str : option string) :
  parseValue str = NaN <->
  exists s run, str = Some s /\ first_run s = Some run /\
                starts_a_number run = false.
Proof.
  unfold parseValue. split.
  - destruct str as [s|]; [|discriminate].
    destruct (String.eqb s ""); [discriminate|].
    destruct (first_run s) as [run|] eqn:Hrun; [|discriminate].
    intros H%parseFloat_NaN_iff. eauto.
  - intros (s & run & -> & Hrun & Hstart).
    destruct (String.eqb s "") eqn:Hs.
    { apply String.eqb_eq in Hs as ->. discriminate Hrun. }
    rewrite Hrun. by apply parseFloat_NaN_iff.
Qed.

End Parse.

(** The value is never negative: it is [NaN] or a number from 0 up. *)
Theorem parseValue_range (str : option string) :
  parseValue str = NaN \/ exists q, parseValue str = Fin q /\ (0 <= q)%Q.
Proof.
  pose proof (parseValue_parsed str) as H.
  destruct (parseValue str) as [| | |q]; cbn in H; try done; eauto.
Qed.

(** *** Further properties of the bars *)

Lemma fold_max2_absorbs (xs : list number) (acc : number) :
  NaN ∈ xs -> fold_left max2 xs acc = NaN.
Proof.
  revert acc. induction xs as [|x xs IH]; intros acc Hin; [by inversion Hin|].
  apply elem_of_cons in Hin as [<-|Hin]; cbn.
  - assert (max2 acc NaN = NaN) as -> by by destruct acc.
    apply fold_max2_NaN.
  - by apply IH.
Qed.

(** One value that does not parse empties the whole row: when the value
    of some product is [NaN], every width of the row is 0. *)
Theorem NaN_zeroes_the_row (m : Metric) (products : list MergedProduct)
  (p : MergedProduct) :
  p ∈ products -> getValue m p = NaN ->
  forall p', percent m products p' = Fin 0.
Proof.
  intros Hp HNaN p'. unfold percent, maxValue, Math_max.
  rewrite fold_max2_absorbs; [reflexivity|].
  rewrite <- HNaN. apply list_elem_of_fmap. eauto.
Qed.


(** A cell that shows the dash never draws a bar: its value is 0. *)
Theorem dash_cell_has_no_bar (m : Metric) (p : MergedProduct) :
  cell_text m p = "-" -> getValue m p = Fin 0 /\ bar_shown m p = false.
Proof.
  unfold cell_text, bar_shown, getValue.
  destruct (getDisplay m p) as [s|]; [|done].
  destruct (String.eqb s "") eqn:Hs.
  - apply String.eqb_eq in Hs as ->. done.
  - by intros ->.
Qed.

(** Exactly one column is this product, the first one, whatever flags
    the competitor records carry; a missing name is replaced, and the
    texts the metrics read are those of the records given. *)
Theorem allProducts_one_main (main : MergedProduct)
  (competitors : list MergedProduct) (fallback : string) :
  length (allProducts main competitors fallback)
    = (1 + length competitors)%nat /\
  map isMain (allProducts main competitors fallback) =
    true :: map (fun _ => false) competitors /\
  map name (allProducts main competitors fallback) =
    (if String.eqb (name main) "" then fallback else name main)
    :: map name competitors /\
  forall m, map (getDisplay m) (allProducts main competitors fallback) =
            getDisplay m main :: map (getDisplay m) competitors.
Proof.
  unfold allProducts. cbn [length map]. rewrite length_map, !map_map.
  repeat split; try done.
  intros m.
  assert (forall n f c,
             getDisplay m (mkProduct n f (price c) (pricePer100g c) (usp c)
                             (nutrition c) (specs c)) = getDisplay m c) as H
    by (intros; by destruct m).
  cbn [map]. rewrite map_map, H. f_equal; apply map_ext; intros c; apply H.
Qed.

Lemma parseValue_reads_first_run_witness :
  all_chars (fun c => negb (in_class c)) "-$" = true /\
  all_chars in_class "12.50" = true /\
  stops in_class " USD" = true /\
  parseValue (Some ("-$" ++ "12.50" ++ " USD")%string) = parseFloat "12.50" /\
  parseFloat "12.50" = Fin (25 # 2).
Proof.
  split; [reflexivity|]. split; [reflexivity|]. split; [reflexivity|].
  split; [|reflexivity].
  apply (parseValue_reads_first_run "-$" "12.50" " USD");
    try reflexivity. discriminate.
Defined.

Lemma parseValue_without_digits_or_points_witness :
  all_chars (fun c => negb (in_class c)) "N/A" = true /\
  parseValue (Some "N/A") = Fin 0.
Proof.
  split; [reflexivity|].
  apply (parseValue_without_digits_or_points "N/A"). reflexivity.
Defined.

Lemma NaN_zeroes_the_row_witness :
  getValue Price vague = NaN /\
  percent Price [choco; vague] choco = Fin 0.
Proof.
  split; [reflexivity|].
  apply (NaN_zeroes_the_row Price [choco; vague] vague);
    [right; left|reflexivity].
Defined.


Lemma dash_cell_has_no_bar_witness :
  cell_text Sugar choco = "-" /\ bar_shown Sugar choco = false.
Proof.
  split; [reflexivity|].
  apply (dash_cell_has_no_bar Sugar choco). reflexivity.
Defined.

Lemma parseValue_NaN_iff_witness :
  first_run "N.A." = Some "." /\ parseValue (Some "N.A.") = NaN.
Proof.
  split; [reflexivity|].
  apply (parseValue_NaN_iff (Some "N.A.")). exists "N.A.", ".".
  repeat split.
Defined.

End ComparisonFacts.

(** * Properties of the bar widths, over binary64 numbers *)

Module Comparison64Facts.
Import SpecFloat Double Comparison Comparison64.
Local Open Scope Z_scope.

(** ** Rounding never produces [NaN] and keeps the sign *)

Lemma shr_1_nonneg (mrs : shr_record) :
  0 <= shr_m mrs -> 0 <= shr_m (shr_1 mrs).
Proof.
  destruct mrs as [m r s]. destruct m as [|[p|p|]|p]; cbn; lia.
Qed.

Lemma iter_shr_1_nonneg (n : positive) (mrs : shr_record) :
  0 <= shr_m mrs -> 0 <= shr_m (iter_pos shr_1 n mrs).
Proof.
  revert mrs. induction n as [n IH|n IH|]; intros mrs H; cbn.
  - apply IH, IH. by apply shr_1_nonneg.
  - by apply IH, IH.
  - by apply shr_1_nonneg.
Qed.

Lemma shr_fexp_nonneg (m e : Z) (l : location) :
  0 <= m -> 0 <= shr_m (fst (shr_fexp prec emax m e l)).
Proof.
  intros H. unfold shr_fexp, shr.
  assert (shr_m (shr_record_of_loc m l) = m) as Hm by by destruct l as [|[]].
  destruct (_ - e); cbn; rewrite <- Hm in H; [done| |done].
  by apply iter_shr_1_nonneg.
Qed.

Lemma round_nearest_even_nonneg (m : Z) (l : location) :
  0 <= m -> 0 <= round_nearest_even m l.
Proof.
  intros H. destruct l as [|[]]; cbn; try lia. destruct (Z.even m); lia.
Qed.

Lemma binary_round_aux_signed (s : bool) (m e : Z) (l : location) :
  0 <= m ->
  match binary_round_aux prec emax s m e l with
  | S754_zero s' | S754_infinity s' | S754_finite s' _ _ => s' = s
  | S754_nan => False
  end.
Proof.
  intros H. unfold binary_round_aux.
  pose proof (shr_fexp_nonneg m e l H) as H1.
  destruct (shr_fexp prec emax m e l) as [mrs' e']. cbn [fst] in H1.
  pose proof (shr_fexp_nonneg _ e' loc_Exact
                (round_nearest_even_nonneg _ (loc_of_shr_record mrs') H1)) as H2.
  destruct (shr_fexp prec emax _ e' loc_Exact) as [mrs'' e'']. cbn [fst] in H2.
  destruct (shr_m mrs''); [done| |lia].
  by destruct (_ <=? _).
Qed.

Lemma div_finite_signed (sx sy : bool) (mx my : positive) (ex ey : Z) :
  match div (S754_finite sx mx ex) (S754_finite sy my ey) with
  | S754_zero s | S754_infinity s | S754_finite s _ _ => s = xorb sx sy
  | S754_nan => False
  end.
Proof.
  unfold div. cbn [SFdiv]. unfold SFdiv_core_binary.
  set (m' := match _ - _ - _ with Z0 => _ | Zpos _ => _ | Zneg _ => _ end).
  assert (0 <= m') as Hm'.
  { subst m'. destruct (_ - _ - _); [lia| |lia]. by apply Z.shiftl_nonneg. }
  pose proof (Z.div_pos m' (Zpos my) Hm' eq_refl) as Hq.
  unfold Z.div in Hq. destruct (Z.div_eucl m' (Zpos my)) as [q r].
  by apply binary_round_aux_signed.
Qed.

Lemma mul_finite_signed (sx sy : bool) (mx my : positive) (ex ey : Z) :
  match mul (S754_finite sx mx ex) (S754_finite sy my ey) with
  | S754_zero s | S754_infinity s | S754_finite s _ _ => s = xorb sx sy
  | S754_nan => False
  end.
Proof. unfold mul. cbn [SFmul]. by apply binary_round_aux_signed. Qed.

(** ** Numbers read from a text *)

Lemma round_not_negative (q : Q) : 0 <= Qnum q -> not_negative (round q).
Proof.
  intros H. unfold round. destruct (Qnum q) as [|n|n]; [done| |lia].
  pose proof (div_finite_signed false false n (Qden q) 0 0) as Hs.
  by destruct (div _ _).
Qed.

Lemma parseFloat_not_negative (s : string) : nan_or_not_negative (parseFloat s).
Proof.
  unfold parseFloat. pose proof (ComparisonFacts.parseFloat_parsed s) as H.
  destruct (Js.parseFloat s) as [| | |q]; cbn in H; try done; [by left|].
  right. apply round_not_negative. unfold Qle in H. cbn in H. lia.
Qed.

Lemma parseValue_not_negative (str : option string) : nan_or_not_negative (parseValue str).
Proof.
  unfold parseValue. destruct str as [s|]; [|by right].
  destruct (String.eqb s ""); [by right|].
  destruct (first_run s); [apply parseFloat_not_negative|by right].
Qed.

(** The Number read is the mathematical value read, rounded. *)
Lemma parseValue_rounds (str : option string) :
  parseValue str = of_exact (Comparison.parseValue str).
Proof.
  unfold parseValue, Comparison.parseValue. destruct str as [s|]; [|done].
  destruct (String.eqb s ""); [done|]. by destruct (first_run s).
Qed.

Lemma values_not_negative (m : Metric) (products : list MergedProduct) :
  Forall nan_or_not_negative (map (getValue m) products).
Proof.
  apply Forall_forall. intros n (p & -> & _)%list_elem_of_fmap.
  apply parseValue_not_negative.
Qed.

(** ** The order of the Numbers that are not negative *)

Ltac by_comparison :=
  unfold gt, max2, SFltb, SFcompare in *; cbn in *;
  change (Pos.compare_cont Eq) with Pos.compare in *;
  repeat match goal with
         | H : context [Z.compare ?a ?b] |- _ => destruct (Z.compare_spec a b)
         | |- context [Z.compare ?a ?b] => destruct (Z.compare_spec a b)
         | H : context [Pos.compare ?a ?b] |- _ => destruct (Pos.compare_spec a b)
         | |- context [Pos.compare ?a ?b] => destruct (Pos.compare_spec a b)
         end;
  subst; cbn in *; try done; try lia;
  repeat split; try done; try lia; auto.

Ltac by_shape x :=
  let s := fresh "s" in
  destruct x as [s|s| |s ? ?];
  cbn [not_negative] in *; try done; try subst s.

Lemma gt_trans (a b c : number) :
  not_negative a -> not_negative b -> not_negative c ->
  gt a b = false -> gt b c = false -> gt a c = false.
Proof. intros Ha Hb Hc. by_shape a; by_shape b; by_shape c; by_comparison. Qed.

Lemma max2_not_negative (a b : number) :
  not_negative a -> not_negative b ->
  not_negative (max2 a b) /\ (max2 a b = a \/ max2 a b = b) /\
  gt a (max2 a b) = false /\ gt b (max2 a b) = false.
Proof. intros Ha Hb. by_shape a; by_shape b; by_comparison. Qed.

Lemma max2_from_nothing (x : number) :
  nan_or_not_negative x -> max2 (S754_infinity true) x = x.
Proof. intros [->|Hx]; [done|]. by by_shape x. Qed.

Lemma gt_irrefl (a : number) : gt a a = false.
Proof. destruct a as [s|s| |s ? ?]; try destruct s; by_comparison. Qed.

Lemma positive_or_zero (x : number) :
  not_negative x -> x = zero \/ gt x zero = true.
Proof. intros Hx. by_shape x; auto. Qed.


(** ** [Math.max] over the values of a row *)

Lemma fold_max2_from_nan (xs : list number) : fold_left max2 xs nan = nan.
Proof. induction xs as [|x xs IH]; cbn; [done|exact IH]. Qed.

Lemma max2_nan_r (a : number) : max2 a nan = nan.
Proof. by destruct a. Qed.

Lemma fold_max2_spec (xs : list number) (a : number) :
  not_negative a -> Forall nan_or_not_negative xs ->
  (fold_left max2 xs a = nan /\ nan ∈ xs) \/
  (not_negative (fold_left max2 xs a) /\
   Forall not_negative xs /\
   gt a (fold_left max2 xs a) = false /\
   Forall (fun x => gt x (fold_left max2 xs a) = false) xs /\
   (fold_left max2 xs a = a \/ fold_left max2 xs a ∈ xs)).
Proof.
  intros Ha Hxs. revert a Ha.
  induction Hxs as [|x xs Hx _ IH]; intros a Ha; cbn [fold_left].
  - right. split; [done|]. split; [constructor|]. split; [apply gt_irrefl|].
    split; [constructor|by left].
  - destruct Hx as [->|Hx].
    { left. rewrite max2_nan_r, fold_max2_from_nan. split; [done|left]. }
    destruct (max2_not_negative a x Ha Hx) as (Hm & Hor & Hma & Hmx).
    destruct (IH (max2 a x) Hm) as [[HM Hin]|(HM & Hall & Hle & Hles & Hin)].
    { left. split; [done|by right]. }
    right. split; [done|]. split; [by constructor|].
    split; [by apply (gt_trans a (max2 a x))|].
    split; [constructor; [by apply (gt_trans x (max2 a x))|done]|].
    destruct Hin as [Hin|Hin]; [|right; by right].
    rewrite Hin. destruct Hor as [->| ->]; [by left|right; left].
Qed.

Lemma Math_max_spec (x : number) (xs : list number) :
  Forall nan_or_not_negative (x :: xs) ->
  (Math_max (x :: xs) = nan /\ nan ∈ x :: xs) \/
  (not_negative (Math_max (x :: xs)) /\
   Forall not_negative (x :: xs) /\
   Forall (fun y => gt y (Math_max (x :: xs)) = false) (x :: xs) /\
   Math_max (x :: xs) ∈ x :: xs).
Proof.
  intros Hall. inversion Hall as [|? ? Hx Hxs]; subst.
  unfold Math_max. cbn [fold_left]. rewrite (max2_from_nothing x Hx).
  destruct Hx as [->|Hx].
  { left. rewrite fold_max2_from_nan. split; [done|left]. }
  destruct (fold_max2_spec xs x Hx Hxs) as [[HM Hin]|(HM & Hnn & Hle & Hles & Hin)].
  { left. split; [done|by right]. }
  right. split; [done|]. split; [by constructor|]. split; [by constructor|].
  destruct Hin as [->|Hin]; [left|by right].
Qed.

(** The maximum of a row: [NaN] exactly when some value is, and otherwise
    a value of the row that no value of the row exceeds. *)
Lemma maxValue_spec64 (m : Metric) (products : list MergedProduct)
  (p : MergedProduct) :
  p ∈ products ->
  (maxValue m products = nan <->
   exists p', p' ∈ products /\ getValue m p' = nan) /\
  (maxValue m products <> nan ->
   not_negative (maxValue m products) /\
   (exists p', p' ∈ products /\ getValue m p' = maxValue m products) /\
   (forall p', p' ∈ products ->
               not_negative (getValue m p') /\
               gt (getValue m p') (maxValue m products) = false)).
Proof.
  intros Hp. destruct products as [|first rest]; [by inversion Hp|].
  pose proof (Math_max_spec (getValue m first) (map (getValue m) rest)
                (values_not_negative m (first :: rest))) as H.
  change (getValue m first :: map (getValue m) rest)
    with (map (getValue m) (first :: rest)) in H.
  fold (maxValue m (first :: rest)) in H.
  destruct H as [[HM Hin]|(HM & Hnn & Hle & Hin)].
  - split; [|done]. split; [|done]. intros _.
    apply list_elem_of_fmap in Hin as (p' & Hv & Hp'). eauto.
  - assert (maxValue m (first :: rest) <> nan) as Hnum.
    { intros Heq. by rewrite Heq in HM. }
    split.
    + split; [done|]. intros (p' & Hp' & Hv). exfalso.
      rewrite Forall_forall in Hnn.
      assert (not_negative (getValue m p')) as Hp'nn
        by (apply Hnn, list_elem_of_fmap; eauto).
      by rewrite Hv in Hp'nn.
    + intros _. split; [done|]. split.
      * apply list_elem_of_fmap in Hin as (p' & Hv & Hp'). eauto.
      * intros p' Hp'. rewrite Forall_forall in Hnn, Hle.
        split; [apply Hnn|apply Hle]; apply list_elem_of_fmap; eauto.
Qed.

(** ** The share of the maximum *)

Lemma times_hundred (d : number) :
  not_negative d -> not_negative (mul d hundred).
Proof.
  intros Hd. by_shape d; [done..|].
  unfold hundred.
  match goal with
  | |- not_negative (mul (S754_finite _ ?a ?b) (S754_finite _ ?c ?e)) =>
      pose proof (mul_finite_signed false false a c b e) as H;
      by destruct (mul _ _)
  end.
Qed.

Lemma share_cases (v M : number) :
  not_negative v -> gt M zero = true ->
  (mul (div v M) hundred = nan <-> v = infinity /\ M = infinity) /\
  (mul (div v M) hundred <> nan -> not_negative (mul (div v M) hundred)).
Proof.
  intros Hv HM.
  assert (v = infinity /\ M = infinity \/
          not_negative (div v M) /\ ~ (v = infinity /\ M = infinity))
    as [[-> ->]|[Hd Hno]].
  { by_shape v; destruct M as [sM|sM| |sM mM eM]; try done;
      destruct sM; try done; try (right; split; [done|by intros [? ?]]);
      [by left|].
    right. split; [|by intros [? ?]].
    match goal with
    | |- not_negative (div (S754_finite _ ?a ?b) (S754_finite _ ?c ?e)) =>
        pose proof (div_finite_signed false false a c b e) as H;
        by destruct (div _ _)
    end. }
  - split; [done|]. by intros H.
  - pose proof (times_hundred _ Hd) as Hw. split.
    + split; [|done]. intros Heq. by rewrite Heq in Hw.
    + done.
Qed.

Lemma percent_of_positive_max (m : Metric) (products : list MergedProduct)
  (p : MergedProduct) :
  gt (maxValue m products) zero = true ->
  percent m products p =
    mul (div (getValue m p) (maxValue m products)) hundred.
Proof. intros H. unfold percent. by rewrite H. Qed.



(** A bar is drawn only for a value above 0.  In a row whose maximum is
    a Number, the maximum is then positive and the width of the bar is the
    share of the maximum, in the arithmetic of the Numbers: it is [NaN]
    exactly when the value is [Infinity], and otherwise it is not
    negative.  (It can be 0: the quotient may underflow.) *)
Theorem shown_bar_is_a_share (m : Metric) (products : list MergedProduct)
  (p : MergedProduct) :
  p ∈ products -> maxValue m products <> nan -> bar_shown m p = true ->
  gt (maxValue m products) zero = true /\
  percent m products p =
    mul (div (getValue m p) (maxValue m products)) hundred /\
  (percent m products p = nan <-> getValue m p = infinity) /\
  (percent m products p <> nan -> not_negative (percent m products p)).
Proof.
  intros Hp HM Hshown.
  destruct (maxValue_spec64 m products p Hp) as [_ Hnum].
  destruct (Hnum HM) as (HMnn & _ & Hall). destruct (Hall p Hp) as [Hv Hle].
  assert (gt (maxValue m products) zero = true) as Hpos.
  { destruct (positive_or_zero _ HMnn) as [H0|Hpos]; [|done].
    rewrite H0 in Hle. unfold bar_shown in Hshown. congruence. }
  split; [done|]. rewrite (percent_of_positive_max m products p Hpos).
  split; [done|].
  destruct (share_cases _ _ Hv Hpos) as [Hiff Hnn]. split; [|done].
  rewrite Hiff. split; [by intros [? _]|]. intros Hinf. split; [done|].
  rewrite Hinf in Hle. revert HMnn Hle.
  generalize (maxValue m products). intros M HMnn Hle.
  by_shape M; by_comparison.
Qed.

Import Samples.

(** Rounding, on some decimal values.  12.5 is a Number; 0.1 is not and
    goes to the nearest one; 2^53 + 1 lies half way between two Numbers
    and goes to the even one; 1e308 is within range and 1e309 is not;
    5e-324 is the least positive Number and 2e-324 goes to 0. *)
Example round_samples :
  round (25 # 2) = S754_finite false 7036874417766400 (-49) /\
  round (1 # 10) = S754_finite false 7205759403792794 (-56) /\
  round (9007199254740993 # 1) = S754_finite false 4503599627370496 1 /\
  round (inject_Z (10 ^ 308)) = S754_finite false 5010420900022432 971 /\
  round (inject_Z (10 ^ 309)) = infinity /\
  round (5 # Z.to_pos (10 ^ 324)) = S754_finite false 1 (-1074) /\
  round (2 # Z.to_pos (10 ^ 324)) = zero.
Proof. repeat split; vm_compute; reflexivity. Qed.

(** The examples of the numeric parse, as Numbers. *)
Example parseValue_numbers :
  parseValue (Some "12.50 USD") = round (25 # 2) /\
  parseValue (Some "N/A") = zero /\
  parseValue (Some "") = zero /\
  parseValue None = zero /\
  parseValue (Some "N.A.") = nan.
Proof. repeat split; vm_compute; reflexivity. Qed.

(** The rows of the design's example: values 10, 0 and 20 give the widths
    50, 0 and 100; values that are all 0 give widths that are all 0. *)
Example widths_of_10_0_20 :
  map (getValue Price) (allProducts choco rivals "Product") =
    [round 10; zero; round 20] /\
  bar_widths Price (allProducts choco rivals "Product") =
    [round 50; zero; round 100].
Proof. split; vm_compute; reflexivity. Qed.

Example widths_of_all_zero :
  bar_widths Sugar (allProducts choco rivals "Product") = [zero; zero; zero].
Proof. reflexivity. Qed.

(** Every operation rounds: against 3, the price 1 gets the width
    33.33333333333333, the Number just below the one nearest to 100/3. *)
Example width_of_1_against_3 :
  percent Price one_and_three (priced "One" "1")
    = S754_finite false 4691249611844266 (-47) /\
  round (100 # 3) = S754_finite false 4691249611844267 (-47).
Proof. split; vm_compute; reflexivity. Qed.

(** A price beyond the largest Number reads as [Infinity]; its own width
    is [NaN] and every other width of the row is 0. *)
Example width_of_an_overflowing_price :
  getValue Price overflowing = infinity /\
  bar_widths Price [choco; overflowing] = [zero; nan].
Proof. split; vm_compute; reflexivity. Qed.


(** The least positive Number against 1e308: the bar is drawn and its
    width is 0. *)
Lemma shown_bar_is_a_share_witness :
  bar_shown Price tiny = true /\
  gt (maxValue Price [tiny; large]) zero = true /\
  percent Price [tiny; large] tiny =
    mul (div (getValue Price tiny) (maxValue Price [tiny; large])) hundred /\
  percent Price [tiny; large] tiny = zero.
Proof.
  split; [vm_compute; reflexivity|].
  destruct (shown_bar_is_a_share Price [tiny; large] tiny) as (Hpos & Heq & _);
    [left|vm_compute; discriminate|vm_compute; reflexivity|].
  split; [exact Hpos|]. split; [exact Heq|]. vm_compute; reflexivity.
Defined.

End Comparison64Facts.

(** * Properties of the exported record *)

Module ExportFacts.
Import Js Client.


(** The record of a session whose insights carry a profile of their
    own. *)
Example export_with_stage2_profile :
  fullData (Some (str "from stage 1")) (Some Samples.insights_with_profile)
           ["https://a.example"] ≫= (fun record => record !! "profile")
  = Some (str "from stage 2").
Proof. reflexivity. Qed.


End ExportFacts.

(** * Properties of the stand-alone script *)

Module ScriptFacts.
Import Script.


Section Page.
Variable generate_content : string -> option string.
Variable json_loads : string -> option pyvalue.

Abbreviation page := (page generate_content json_loads).

(** The tabs are rendered exactly when the key is configured, the button
    was pressed with a topic, and the response parsed to a document that
    is truthy; every other run with a pressed button and a topic ends in
    the no-data error, after the exception report when the call or the
    parse failed.  A document that parses to an empty or zero value is
    reported as no data. *)
Theorem page_outcomes (has_key analyze_btn : bool) (topic : string) :
  (forall data,
      Tabs data ∈ page has_key analyze_btn topic <->
      has_key = true /\ analyze_btn = true /\ topic <> "" /\
      generate_content topic ≫= json_loads = Some data /\
      py_truthy data = true) /\
  (NoDataError ∈ page has_key analyze_btn topic <->
   has_key = true /\ analyze_btn = true /\ topic <> "" /\
   forall data, generate_content topic ≫= json_loads = Some data ->
                py_truthy data = false) /\
  (GeminiError ∈ page has_key analyze_btn topic <->
   has_key = true /\ analyze_btn = true /\ topic <> "" /\
   generate_content topic ≫= json_loads = None) /\
  (has_key = false -> page has_key analyze_btn topic = [MissingKeyWarning]).
Proof.
  unfold Script.page, get_gemini_response.
  destruct (String.eqb_spec topic "") as [Htopic|Htopic];
    destruct has_key, analyze_btn; cbn [negb andb];
    try (repeat split; intros; set_unfold; intuition congruence).
  destruct (generate_content topic ≫= json_loads) as [found|];
    [destruct (py_truthy found) eqn:Hfound|]; cbn;
    repeat split; intros; set_unfold;
    intuition (try discriminate; try congruence; eauto);
    match goal with
    | H : forall x, Some ?d = Some x -> _ |- _ =>
        specialize (H d eq_refl); congruence
    end.
Qed.

End Page.

(** A response that parses to an empty object is reported as no data,
    without any exception report. *)
Example empty_document_is_no_data :
  Script.page (fun _ => Some "{}") Samples.loads_empty_dict true true "iPhone"
  = [Spinner "iPhone"; NoDataError].
Proof. reflexivity. Qed.

Lemma page_outcomes_witness :
  NoDataError ∈
    Script.page (fun _ => Some "{}") Samples.loads_empty_dict true true "iPhone".
Proof.
  apply (page_outcomes (fun _ => Some "{}") Samples.loads_empty_dict
           true true "iPhone").
  repeat split; try discriminate. intros data [= <-]. reflexivity.
Defined.

End ScriptFacts.
